(** * The fraud-detection rule engine of [ai_logic.py]

    A shallow embedding of [FraudDetectionAI] (module [ai_logic]) and the
    properties of its scoring and classification.

    Conventions of the embedding.

    - A Python [str] is a [string]; each [ascii] is read as the code point
      of the same number (U+0000 .. U+00FF).  On that range [str.lower],
      [str.isspace] and the regular-expression class [\d] are the
      functions [lower_char], [isspace] and [isdigit] below.  Texts with
      code points from U+0100 on are outside the embedding.
    - The explanation text of a flag can hold U+20B9 (the rupee sign), so
      it is a list of code points ([text]).
    - A Python [int] is a [Z].
    - The object [ai_engine] is the record [Engine]; a method is a function
      of the monad [M], which threads the object's fields and stops at the
      first exception raised.
    - [int_max_str_digits] is the interpreter's limit on the number of
      digits [int] converts from text ([sys.get_int_max_str_digits()]: 4300
      unless changed, and then 0 or at least 640); [0] means there is no
      limit, as in interpreters that have none. *)

From Stdlib Require Import String Ascii List ZArith NArith Lia Bool DecimalString.
Import ListNotations.

Local Open Scope string_scope.
Local Open Scope list_scope.

(* ================================================================== *)
(** ** Python values: exceptions and results                          *)
(* ================================================================== *)

Inductive exception : Type :=
| IndexError
| KeyError
| ValueError.

Inductive result (A : Type) : Type :=
| Ok (a : A)
| Raise (e : exception).

Arguments Ok {A} a.
Arguments Raise {A} e.

Definition rbind {A B : Type} (r : result A) (k : A -> result B) : result B :=
  match r with
  | Ok a => k a
  | Raise e => Raise e
  end.

(* ================================================================== *)
(** ** The string operations the engine uses                          *)
(* ================================================================== *)

Module PyStr.

Definition code (c : ascii) : N := N_of_ascii c.

Definition between (lo hi n : N) : bool := ((lo <=? n) && (n <=? hi))%N.

(** [str.lower] on one code point below U+0100: [A-Z] and the capital
    letters U+00C0 .. U+00DE (U+00D7, the multiplication sign, apart)
    move up by 32. *)
Definition lower_char (c : ascii) : ascii :=
  let n := code c in
  if between 65 90 n || (between 192 222 n && negb (n =? 215)%N)
  then ascii_of_N (n + 32)
  else c.

Fixpoint lower (s : string) : string :=
  match s with
  | EmptyString => EmptyString
  | String c t => String (lower_char c) (lower t)
  end.

(** [str.isspace] on one code point below U+0100. *)
Definition isspace (c : ascii) : bool :=
  let n := code c in
  between 9 13 n || between 28 32 n || (n =? 133)%N || (n =? 160)%N.

(** The class [\d] below U+0100: the ten decimal digits. *)
Definition isdigit (c : ascii) : bool := between 48 57 (code c).

Fixpoint startswith (sub s : string) : bool :=
  match sub, s with
  | EmptyString, _ => true
  | String _ _, EmptyString => false
  | String a sub', String b s' => Ascii.eqb a b && startswith sub' s'
  end.

(** [sub in s] *)
Fixpoint contains (sub s : string) : bool :=
  startswith sub s
  || match s with
     | EmptyString => false
     | String _ t => contains sub t
     end.

(** [s.split(sep)] for a separator of one character. *)
Fixpoint split (sep : ascii) (s : string) : list string :=
  match s with
  | EmptyString => [EmptyString]
  | String c t =>
      if Ascii.eqb c sep then EmptyString :: split sep t
      else match split sep t with
           | h :: r => String c h :: r
           | [] => [String c EmptyString]
           end
  end.

(** The maximal runs of characters that satisfy [p], from left to right. *)
Fixpoint runs (p : ascii -> bool) (s : string) : list string :=
  match s with
  | EmptyString => []
  | String c t =>
      if p c then
        match t with
        | EmptyString => [String c EmptyString]
        | String c' _ =>
            if p c' then
              match runs p t with
              | h :: r => String c h :: r
              | [] => [String c EmptyString]
              end
            else String c EmptyString :: runs p t
        end
      else runs p t
  end.

(** [s.split()]: the words between runs of whitespace. *)
Definition split_ws (s : string) : list string :=
  runs (fun c => negb (isspace c)) s.

(** [re.findall(r'[\d,]+', s)] *)
Definition findall_digits_commas (s : string) : list string :=
  runs (fun c => isdigit c || Ascii.eqb c ",") s.

Fixpoint lstrip (s : string) : string :=
  match s with
  | EmptyString => EmptyString
  | String c t => if isspace c then lstrip t else s
  end.

Fixpoint rstrip (s : string) : string :=
  match s with
  | EmptyString => EmptyString
  | String c t =>
      match rstrip t with
      | EmptyString => if isspace c then EmptyString else String c EmptyString
      | r => String c r
      end
  end.

(** [s.strip()] *)
Definition strip (s : string) : string := rstrip (lstrip s).

(** [s.count(c)] for a text of one character. *)
Fixpoint count (c : ascii) (s : string) : Z :=
  match s with
  | EmptyString => 0
  | String a t => (if Ascii.eqb a c then 1 else 0) + count c t
  end%Z.

(** [s.replace(c, '')] for a text of one character. *)
Fixpoint remove (c : ascii) (s : string) : string :=
  match s with
  | EmptyString => EmptyString
  | String a t => if Ascii.eqb a c then remove c t else String a (remove c t)
  end.

(** [len(s)] *)
Definition len (s : string) : Z := Z.of_nat (String.length s).

(** [sep.join(l)] *)
Fixpoint join (sep : string) (l : list string) : string :=
  match l with
  | [] => EmptyString
  | [x] => x
  | x :: r => (x ++ sep ++ join sep r)%string
  end.

Fixpoint int_digits (acc : Z) (s : string) : result Z :=
  match s with
  | EmptyString => Ok acc
  | String c t =>
      if isdigit c then int_digits (10 * acc + (Z.of_N (code c) - 48)) t
      else Raise ValueError
  end.

(** [int(s)] on the texts its one call site passes: decimal digits only,
    possibly none.  The empty text and a text longer than the
    interpreter's limit raise [ValueError]. *)
Definition int (int_max_str_digits : nat) (s : string) : result Z :=
  match s with
  | EmptyString => Raise ValueError
  | String _ _ =>
      if (0 <? int_max_str_digits)%nat && (int_max_str_digits <? String.length s)%nat
      then Raise ValueError
      else int_digits 0 s
  end.

(** [l[i]] on a list *)
Definition index {A : Type} (l : list A) (i : nat) : result A :=
  match nth_error l i with
  | Some x => Ok x
  | None => Raise IndexError
  end.

(** A text as its code points. *)
Definition text : Type := list N.

Fixpoint cps (s : string) : text :=
  match s with
  | EmptyString => []
  | String c t => code c :: cps t
  end.

(** [str(n)] for an [int] that is not negative. *)
Definition str_int (n : Z) : string :=
  NilEmpty.string_of_uint (N.to_uint (Z.to_N n)).

Fixpoint group3 (k : nat) (rev_digits : list ascii) : list ascii :=
  match rev_digits with
  | [] => []
  | c :: t =>
      match t with
      | [] => [c]
      | _ :: _ =>
          if (k =? 2)%nat then c :: ","%char :: group3 0 t
          else c :: group3 (S k) t
      end
  end.

(** [format(n, ',')] for an [int] that is not negative: the decimal
    digits, with a comma before every group of three from the right. *)
Definition format_commas (n : Z) : string :=
  string_of_list_ascii (rev (group3 0 (rev (list_ascii_of_string (str_int n))))).

End PyStr.

(* ================================================================== *)
(** ** Dictionaries and sets of the configuration                     *)
(* ================================================================== *)

(** A [dict] with text keys, in insertion order. *)
Definition dict (V : Type) : Type := list (string * V).

Fixpoint dict_get {V : Type} (d : dict V) (k : string) : option V :=
  match d with
  | [] => None
  | (k', v) :: r => if String.eqb k' k then Some v else dict_get r k
  end.

(** [k in d] *)
Definition dict_in {V : Type} (k : string) (d : dict V) : bool :=
  match dict_get d k with
  | Some _ => true
  | None => false
  end.

(** [d[k]] *)
Definition dict_getitem {V : Type} (d : dict V) (k : string) : result V :=
  match dict_get d k with
  | Some v => Ok v
  | None => Raise KeyError
  end.

(** [d[k] = v]: an existing key keeps its place, a new one goes last. *)
Fixpoint dict_set {V : Type} (d : dict V) (k : string) (v : V) : dict V :=
  match d with
  | [] => [(k, v)]
  | (k', v') :: r =>
      if String.eqb k' k then (k', v) :: r else (k', v') :: dict_set r k v
  end.

(** [x in s] for a set of texts *)
Definition set_in (x : string) (s : list string) : bool :=
  existsb (String.eqb x) s.

(** [sum(...)] of a list of [int] *)
Definition sum (l : list Z) : Z := fold_right Z.add 0%Z l.

(** [not x] for an optional text: true of [None] and of the empty text. *)
Definition py_not (x : option string) : bool :=
  match x with
  | None => true
  | Some EmptyString => true
  | Some (String _ _) => false
  end.

Definition FREE_EMAIL_DOMAINS : list string :=
  ["gmail.com"; "yahoo.com"; "outlook.com"; "hotmail.com";
   "mail.com"; "protonmail.com"; "yandex.com"; "aol.com";
   "icloud.com"; "mail.ru"; "temp-mail.org"].

Definition SUSPICIOUS_KEYWORDS : dict (list string) :=
  [("urgency", ["urgent"; "asap"; "immediately"; "within 24 hours"; "apply now"; "limited time"]);
   ("money_request", ["payment"; "fee"; "registration"; "processing"; "verification fee"; "advance payment"]);
   ("unrealistic_benefits", ["unlimited leaves"; "no work"; "from home no work"; "easy money"; "passive income"]);
   ("copy_paste", ["dear applicant"; "dear candidate"; "dear applicants"]);
   ("guaranteed", ["guaranteed"; "promise"; "certainly"; "assured"; "definitely hired"]);
   ("work_from_home_too_good", ["work from anywhere"; "no experience needed"; "earn 5000/day"; "earn while you sleep"])].

Definition UNREALISTIC_SALARY_THRESHOLDS : dict (dict Z) :=
  [("internship", [("min", 5000); ("max", 500000)]);
   ("entry_level", [("min", 200000); ("max", 3000000)]);
   ("mid_level", [("min", 500000); ("max", 5000000)])]%Z.

(* ================================================================== *)
(** ** The engine object and its methods                              *)
(* ================================================================== *)

Import PyStr.

(** An entry of [detected_flags]: a [dict] with the keys ['type'],
    ['description'] and ['severity']. *)
Record Flag : Type := mkFlag {
  type : string;
  description : text;
  severity : string
}.

(** The fields of a [FraudDetectionAI] object. *)
Record Engine : Type := mkEngine {
  detected_flags : list Flag;
  risk_score : Z
}.

(** A method: it reads and writes the fields of [self], and returns a
    value or raises. *)
Definition M (A : Type) : Type := Engine -> result (A * Engine).

Definition ret {A : Type} (a : A) : M A := fun self => Ok (a, self).

Definition bind {A B : Type} (m : M A) (k : A -> M B) : M B :=
  fun self =>
    match m self with
    | Ok (a, self') => k a self'
    | Raise e => Raise e
    end.

Definition lift {A : Type} (r : result A) : M A :=
  fun self =>
    match r with
    | Ok a => Ok (a, self)
    | Raise e => Raise e
    end.

Declare Scope method_scope.
Delimit Scope method_scope with method.
Notation "x <- m ;; k" := (bind m (fun x => k))
  (at level 61, m at next level, right associativity) : method_scope.
Notation "m ;; k" := (bind m (fun _ => k))
  (at level 61, right associativity) : method_scope.
Local Open Scope method_scope.
Local Open Scope Z_scope.

Definition get_risk_score : M Z := fun self => Ok (risk_score self, self).

Definition get_detected_flags : M (list Flag) :=
  fun self => Ok (detected_flags self, self).

Definition set_risk_score (v : Z) : M unit :=
  fun self => Ok (tt, mkEngine (detected_flags self) v).

Definition set_detected_flags (l : list Flag) : M unit :=
  fun self => Ok (tt, mkEngine l (risk_score self)).

Definition dquote : string := String "034"%char EmptyString.

Definition rupee : text := [8377%N].

(** An f-string: its literal parts and formatted values, in order. *)
Definition fstring (parts : list text) : text := List.concat parts.

Module FraudDetectionAI.

(** [__init__] *)
Definition __init__ : Engine := mkEngine [] 0.

Definition _add_flag (flag_type : string) (description : text)
    (severity : string) (score_impact : Z) : M unit :=
  l <- get_detected_flags ;;
  set_detected_flags (l ++ [mkFlag flag_type description severity]) ;;
  s <- get_risk_score ;;
  set_risk_score (s + score_impact).

Definition _classify_risk : M string :=
  s <- get_risk_score ;;
  set_risk_score (Z.min s 100) ;;
  s <- get_risk_score ;;
  if s <? 30 then ret "Legitimate"
  else if s <? 70 then ret "Suspicious"
  else ret "Fake".

Definition _check_email_domain (email : string) : M unit :=
  domain <- lift (rbind (index (split "@" email) 1) (fun d => Ok (lower d))) ;;
  if set_in domain FREE_EMAIL_DOMAINS then
    _add_flag "Free Email Domain"
      (fstring [cps "Contact email uses free email service (";
         cps domain;
         cps ") instead of company domain. Legitimate companies typically use official email addresses."])
      "high" 15
  else ret tt.

Definition _check_missing_website (website : option string) (company_name : string) : M unit :=
  if py_not website then
    _add_flag "Missing Company Website"
      (fstring [cps "No company website provided. Legitimate companies always have professional web presence."])
      "high" 12
  else ret tt.

(** The body of the inner loop: [found_keywords[category]] is created
    empty when the key is new, then [keyword] is appended to it. *)
Definition record_keyword (category keyword : string)
    (found_keywords : dict (list string)) : dict (list string) :=
  match dict_get found_keywords category with
  | None => dict_set found_keywords category [keyword]
  | Some l => dict_set found_keywords category (l ++ [keyword])
  end.

Definition scan_keywords (description : string) : dict (list string) :=
  fold_left
    (fun found_keywords (item : string * list string) =>
       let (category, keywords) := item in
       fold_left
         (fun found_keywords keyword =>
            if contains keyword description
            then record_keyword category keyword found_keywords
            else found_keywords)
         keywords found_keywords)
    SUSPICIOUS_KEYWORDS [].

Definition _check_suspicious_keywords (description : string) : M unit :=
  let found_keywords := scan_keywords description in
  (if dict_in "money_request" found_keywords then
     l <- lift (dict_getitem found_keywords "money_request") ;;
     _add_flag "Payment Request"
       (fstring [cps "Job posting mentions payment/fees: ";
         cps (join ", " l);
         cps ". Legitimate employers never ask for payments from candidates."])
       "critical" 25
   else ret tt) ;;
  (if dict_in "guaranteed" found_keywords then
     l <- lift (dict_getitem found_keywords "guaranteed") ;;
     _add_flag "Unrealistic Guarantees"
       (fstring [cps "Posting guarantees employment: ";
         cps (join ", " l);
         cps ". No legitimate recruitment guarantees jobs."])
       "high" 18
   else ret tt) ;;
  (if dict_in "work_from_home_too_good" found_keywords then
     l <- lift (dict_getitem found_keywords "work_from_home_too_good") ;;
     _add_flag "Unrealistic Work-from-Home Offer"
       (fstring [cps "Suspicious work-from-home claims: ";
         cps (join ", " l);
         cps ". Be cautious of ";
         cps dquote;
         cps "earn money while sleeping";
         cps dquote;
         cps " type offers."])
       "high" 16
   else ret tt).

Definition _check_urgency_language (description : string) : M unit :=
  keywords <- lift (dict_getitem SUSPICIOUS_KEYWORDS "urgency") ;;
  let urgency_count :=
    sum (map (fun _ => 1) (filter (fun keyword => contains keyword description) keywords)) in
  if urgency_count >=? 2 then
    _add_flag "Excessive Urgency"
      (cps "Job posting uses urgent language excessively (" ++ cps (str_int urgency_count)
       ++ cps " instances). This is a common tactic in scams to bypass critical thinking.")
      "medium" 10
  else ret tt.

Definition _check_copy_paste_content (description : string) : M unit :=
  phrases <- lift (dict_getitem SUSPICIOUS_KEYWORDS "copy_paste") ;;
  let generic_count :=
    sum (map (fun _ => 1) (filter (fun phrase => contains phrase description) phrases)) in
  if generic_count >? 0 then
    _add_flag "Generic/Copy-Paste Content"
      (fstring [cps "Job posting uses generic greetings (e.g., ";
         cps dquote;
         cps "Dear Applicant";
         cps dquote;
         cps "). Legitimate companies customize communications."])
      "medium" 8
  else ret tt.

Definition _check_unrealistic_benefits (description : string) : M unit :=
  phrases <- lift (dict_getitem SUSPICIOUS_KEYWORDS "unrealistic_benefits") ;;
  if existsb (fun phrase => contains phrase description) phrases then
    _add_flag "Unrealistic Benefits"
      (fstring [cps "Job posting promises unrealistic benefits (unlimited leaves, no work required). These are red flags for fraudulent offers."])
      "high" 14
  else ret tt.

Section Interpreter.

Variable int_max_str_digits : nat.

Definition _check_salary_unrealistic (salary : option string) (job_title : string) : M unit :=
  match salary with
  | None => ret tt
  | Some EmptyString => ret tt
  | Some (String _ _ as salary) =>
      (* Extract numbers from salary string *)
      let numbers := findall_digits_commas salary in
      match numbers with
      | [] => ret tt
      | _ :: _ =>
          match rbind (index numbers 0)
                      (fun number => int int_max_str_digits (remove "," number)) with
          | Raise ValueError => ret tt
          | Raise IndexError => ret tt
          | Raise KeyError => lift (Raise KeyError)
          | Ok salary_value =>
              (* Determine job level *)
              let job_title_lower := lower job_title in
              band <-
                (if existsb (fun word => contains word job_title_lower)
                      ["intern"; "apprentice"; "fresher"] then
                   threshold <- lift (dict_getitem UNREALISTIC_SALARY_THRESHOLDS "internship") ;;
                   ret ("internship", threshold)
                 else if existsb (fun word => contains word job_title_lower)
                      ["junior"; "entry"; "associate"] then
                   threshold <- lift (dict_getitem UNREALISTIC_SALARY_THRESHOLDS "entry_level") ;;
                   ret ("entry_level", threshold)
                 else
                   threshold <- lift (dict_getitem UNREALISTIC_SALARY_THRESHOLDS "mid_level") ;;
                   ret ("mid_level", threshold)) ;;
              let (job_level, threshold) := band : string * dict Z in
              threshold_max <- lift (dict_getitem threshold "max") ;;
              if salary_value >? threshold_max then
                _add_flag "Unrealistic Salary (Too High)"
                  (fstring [cps "Salary of "; rupee; cps (format_commas salary_value);
                            cps " is unusually high for a "; cps job_level;
                            cps " position. This is often used to attract and trap victims."])
                  "high" 13
              else
                threshold_min <- lift (dict_getitem threshold "min") ;;
                if salary_value <? threshold_min then
                  _add_flag "Unrealistic Salary (Too Low)"
                    (fstring [cps "Salary of "; rupee; cps (format_commas salary_value);
                              cps " is unusually low for a "; cps job_level;
                              cps " position. This may indicate a scam or highly exploitative offer."])
                    "medium" 7
                else ret tt
          end
      end
  end.

Definition _check_description_quality (description : string) : M unit :=
  (* Check for very short descriptions *)
  (if len (strip description) <? 100 then
     _add_flag "Poor Job Description Quality"
       (fstring [cps "Job description is too brief and lacks essential details. Legitimate postings are comprehensive."])
       "medium" 6
   else ret tt) ;;
  (* Check for spelling and grammar issues *)
  let common_misspellings := ["recieve"; "occured"; "sucessful"; "applicaton"; "seperete"] in
  let misspelling_count :=
    sum (map (fun _ => 1)
             (filter (fun misspelling => contains misspelling (lower description))
                     common_misspellings)) in
  if misspelling_count >=? 2 then
    _add_flag "Poor Grammar/Spelling"
      (fstring [cps "Job description contains "; cps (str_int misspelling_count);
                cps "+ spelling/grammar errors. Professional companies maintain high writing standards."])
      "low" 4
  else ret tt.

Definition _check_company_legitimacy (company_name : string) : M unit :=
  let company_lower := lower company_name in
  if existsb (fun word => contains word company_lower)
       ["private"; "limited"; "corporation"; "international"] then
    if count " " company_lower >? 4 then
      _add_flag "Suspicious Company Name Pattern"
        (fstring [cps "Company name appears constructed with common legitimacy keywords. Verify company independently."])
        "low" 3
    else ret tt
  else ret tt.

Definition _check_email_company_mismatch (email company_name : string) : M unit :=
  email_domain <- lift (rbind (index (split "@" email) 1) (fun d => Ok (lower d))) ;;
  company_short <- lift (index (split_ws (lower company_name)) 0) ;;
  if negb (contains company_short email_domain) && (len company_short >? 3) then
    if negb (set_in email_domain FREE_EMAIL_DOMAINS) then
      ret tt
    else ret tt
  else ret tt.

Definition analyze (company_name job_title description email : string)
    (website salary : option string) : M (Z * string * list Flag) :=
  (* Reset state *)
  set_detected_flags [] ;;
  set_risk_score 0 ;;
  (* Normalize inputs *)
  let description_lower := lower description in
  let email_lower := lower email in
  (* Run all detection rules *)
  _check_email_domain email_lower ;;
  _check_missing_website website company_name ;;
  _check_suspicious_keywords description_lower ;;
  _check_urgency_language description_lower ;;
  _check_copy_paste_content description_lower ;;
  _check_unrealistic_benefits description_lower ;;
  _check_salary_unrealistic salary job_title ;;
  _check_description_quality description ;;
  _check_company_legitimacy company_name ;;
  _check_email_company_mismatch email company_name ;;
  (* Calculate final risk score and classification *)
  classification <- _classify_risk ;;
  score <- get_risk_score ;;
  flags <- get_detected_flags ;;
  ret (score, classification, flags).

End Interpreter.

End FraudDetectionAI.

Import FraudDetectionAI.

(** [analyze_job_offer]: the call on the module's one engine object. *)
Definition analyze_job_offer (int_max_str_digits : nat)
    (company_name job_title description email : string)
    (website salary : option string) : M (Z * string * list Flag) :=
  analyze int_max_str_digits company_name job_title description email website salary.

(* ================================================================== *)
(** ** The request handler of [app.py]                                *)
(* ================================================================== *)

(** [_get_explanation] *)
Definition _get_explanation (risk_score : Z) (classification : string) : string :=
  if String.eqb classification "Legitimate" then
    ("This job offer appears to be legitimate based on our analysis. "
     ++ "However, always verify company details independently before proceeding.")%string
  else if String.eqb classification "Suspicious" then
    ("This job offer has several characteristics that require caution. "
     ++ "We recommend verifying company details, speaking with current employees, "
     ++ "and consulting your college placement cell before applying.")%string
  else if String.eqb classification "Fake" then
    ("This job offer shows multiple red flags consistent with fraudulent schemes. "
     ++ "We strongly recommend NOT proceeding with this opportunity. "
     ++ "Report this to your college authorities if received officially.")%string
  else "Unable to classify this offer. Use your judgment.".

(** A field of the request body: a JSON string, or [null] ([None]).
    Bodies with fields of other JSON types are outside the embedding. *)
Definition json_body : Type := dict (option string).

(** [data.get(k)] and [data.get(k, default)] *)
Definition body_get (data : json_body) (k : string) (default : option string) : option string :=
  match dict_get data k with
  | Some v => v
  | None => default
  end.

(** [str(v)] *)
Definition py_str (v : option string) : string :=
  match v with
  | Some s => s
  | None => "None"
  end.

(** What [analyze_job] does with a JSON body before the database is
    touched: it answers 400 itself, or calls [analyze_job_offer]. *)
Inductive request_outcome : Type :=
| Respond (status : Z) (error message : string)
| CallEngine (company_name job_title description email : string)
             (website salary : option string).

(** The loop over [required_fields]: the first field that is missing,
    [null] or empty, if there is one. *)
Fixpoint first_missing (required_fields : list string) (data : json_body) : option string :=
  match required_fields with
  | [] => None
  | field :: rest =>
      if negb (dict_in field data) || py_not (body_get data field None)
      then Some field
      else first_missing rest data
  end.

(** [analyze_job], from [request.get_json()] to the call of
    [analyze_job_offer]. *)
Definition analyze_job_request (data : json_body) : request_outcome :=
  (* Validate required fields *)
  let required_fields := ["company_name"; "job_title"; "description"; "email"] in
  match first_missing required_fields data with
  | Some field =>
      Respond 400 "Missing Required Field"
        ("Field " ++ dquote ++ field ++ dquote ++ " is required and cannot be empty")%string
  | None =>
      (* Extract and sanitize input *)
      let company_name := strip (py_str (body_get data "company_name" (Some EmptyString))) in
      let job_title := strip (py_str (body_get data "job_title" (Some EmptyString))) in
      let description := strip (py_str (body_get data "description" (Some EmptyString))) in
      let email := lower (strip (py_str (body_get data "email" (Some EmptyString)))) in
      let website :=
        if py_not (body_get data "website" None) then None
        else Some (strip (py_str (body_get data "website" (Some EmptyString)))) in
      let salary :=
        if py_not (body_get data "salary" None) then None
        else Some (strip (py_str (body_get data "salary" (Some EmptyString)))) in
      (* Validate email format *)
      if negb (contains "@" email)
         || negb (contains "." (last (split "@" email) EmptyString))
      then Respond 400 "Invalid Email" "Please provide a valid email address"
      else CallEngine company_name job_title description email website salary
  end.

(* ================================================================== *)
(** ** Definitions used to state the properties                       *)
(* ================================================================== *)

(** The engine [st] after a method that appended the flags of [d] and
    added the score of [d]. *)
Definition merge (st d : Engine) : Engine :=
  mkEngine (detected_flags st ++ detected_flags d) (risk_score st + risk_score d).

(** What a rule leaves in a fresh engine: the flags it appends and the
    score it adds. *)
Definition out (m : M unit) : Engine :=
  match m __init__ with
  | Ok (_, d) => d
  | Raise _ => __init__
  end.

(** A rule that never raises and only appends to the engine. *)
Definition steady (m : M unit) : Prop :=
  forall st, m st = Ok (tt, merge st (out m)).

Definition flag_types (flags : list Flag) : list string := map type flags.

(** The [score_impact] each flag type is added with, read off the calls
    of [_add_flag]. *)
Definition score_impact_of (flag_type : string) : Z :=
  match dict_get
          [("Free Email Domain", 15); ("Missing Company Website", 12);
           ("Payment Request", 25); ("Unrealistic Guarantees", 18);
           ("Unrealistic Work-from-Home Offer", 16); ("Excessive Urgency", 10);
           ("Generic/Copy-Paste Content", 8); ("Unrealistic Benefits", 14);
           ("Unrealistic Salary (Too High)", 13); ("Unrealistic Salary (Too Low)", 7);
           ("Poor Job Description Quality", 6); ("Poor Grammar/Spelling", 4);
           ("Suspicious Company Name Pattern", 3)] flag_type with
  | Some v => v
  | None => 0
  end.

(** The flag types of the rules, each with the severity it is added with. *)
Definition CATALOGUE : list (string * string) :=
  [("Free Email Domain", "high"); ("Missing Company Website", "high");
   ("Payment Request", "critical"); ("Unrealistic Guarantees", "high");
   ("Unrealistic Work-from-Home Offer", "high"); ("Excessive Urgency", "medium");
   ("Generic/Copy-Paste Content", "medium"); ("Unrealistic Benefits", "high");
   ("Unrealistic Salary (Too High)", "high"); ("Unrealistic Salary (Too Low)", "medium");
   ("Poor Job Description Quality", "medium"); ("Poor Grammar/Spelling", "low");
   ("Suspicious Company Name Pattern", "low")].

(** The sum of the impacts of a list of flags. *)
Definition total_impact (flags : list Flag) : Z :=
  sum (map (fun f => score_impact_of (type f)) flags).

(** An engine whose score is the sum of the impacts of its flags, all of
    them flags of the catalogue. *)
Definition accounted (st : Engine) : Prop :=
  risk_score st = total_impact (detected_flags st)
  /\ Forall (fun f => In (type f, severity f) CATALOGUE) (detected_flags st).

(** The flag types a rule appends. *)
Definition types_out (m : M unit) : list string :=
  flag_types (detected_flags (out m)).

(** Some keyword of the list occurs in the text. *)
Definition any_in (keywords : list string) (description : string) : bool :=
  existsb (fun keyword => contains keyword description) keywords.

(** How many keywords of the list occur in the text. *)
Definition count_in (keywords : list string) (description : string) : Z :=
  sum (map (fun _ => 1) (filter (fun keyword => contains keyword description) keywords)).

(** The keywords of a category of [SUSPICIOUS_KEYWORDS]. *)
Definition keywords_of (category : string) : list string :=
  match dict_get SUSPICIOUS_KEYWORDS category with
  | Some keywords => keywords
  | None => []
  end.

(** The sum of the impacts of a list of flag types. *)
Definition impact_sum (types : list string) : Z := sum (map score_impact_of types).

(** The band of a job title: the value [job_level] takes in
    [_check_salary_unrealistic]. *)
Definition job_level (job_title : string) : string :=
  if existsb (fun word => contains word (lower job_title)) ["intern"; "apprentice"; "fresher"]
  then "internship"
  else if existsb (fun word => contains word (lower job_title)) ["junior"; "entry"; "associate"]
  then "entry_level"
  else "mid_level".

(** The value [salary_value] takes in [_check_salary_unrealistic], or the
    exception its [try] block stops at. *)
Definition salary_value (int_max_str_digits : nat) (salary : string) : result Z :=
  rbind (index (findall_digits_commas salary) 0)
        (fun number => int int_max_str_digits (remove "," number)).

(** A bound (['min'] or ['max']) of the band of a job title. *)
Definition threshold_of (job_title key : string) : Z :=
  match dict_get UNREALISTIC_SALARY_THRESHOLDS (job_level job_title) with
  | Some threshold =>
      match dict_get threshold key with
      | Some v => v
      | None => 0
      end
  | None => 0
  end.

(** What the first nine rules of [analyze] leave in a fresh engine. *)
Definition findings (int_max_str_digits : nat)
    (company_name job_title description email : string)
    (website salary : option string) : Engine :=
  merge (out (_check_email_domain (lower email)))
 (merge (out (_check_missing_website website company_name))
 (merge (out (_check_suspicious_keywords (lower description)))
 (merge (out (_check_urgency_language (lower description)))
 (merge (out (_check_copy_paste_content (lower description)))
 (merge (out (_check_unrealistic_benefits (lower description)))
 (merge (out (_check_salary_unrealistic int_max_str_digits salary job_title))
 (merge (out (_check_description_quality description))
        (out (_check_company_legitimacy company_name))))))))).

(** The tier of a score, as the tests of [_classify_risk] give it. *)
Definition tier (score : Z) : string :=
  if score <? 30 then "Legitimate"
  else if score <? 70 then "Suspicious"
  else "Fake".

(** The value [analyze] returns and the engine it leaves, from what the
    rules found. *)
Definition report (st : Engine) : Z * string * list Flag * Engine :=
  let score := Z.min (risk_score st) 100 in
  (score, tier score, detected_flags st, mkEngine (detected_flags st) score).

Create HintDb steady.

(** Every text that occurs in [d] occurs in [d']. *)
Definition covers (d d' : string) : Prop :=
  forall k, contains k d = true -> contains k d' = true.

(** The score and the flag of a rule that adds one flag of the catalogue. *)
Ltac accounted_flag :=
  split; [reflexivity | constructor; [simpl; tauto | constructor]].

(** Case analysis of a flag type found in the output of the rules. *)
Ltac trace_flag H :=
  repeat match type of H with
         | In _ (_ ++ _) => apply in_app_or in H; destruct H as [H|H]
         | In _ (if ?b then _ else _) => destruct b eqn:?
         | In _ (match ?x with _ => _ end) => destruct x eqn:?
         | In _ [] => destruct H
         | In _ (_ :: _) => destruct H as [H|H]; [try discriminate H|]
         end.

Definition salary_flag_types : list string :=
  ["Unrealistic Salary (Too High)"; "Unrealistic Salary (Too Low)"].

(** [l] is [m] with some elements left out. *)
Inductive Subseq : list string -> list string -> Prop :=
| Subseq_nil : Subseq [] []
| Subseq_skip (x : string) (l m : list string) : Subseq l m -> Subseq l (x :: m)
| Subseq_take (x : string) (l m : list string) : Subseq l m -> Subseq (x :: l) (x :: m).

(** The matched keywords [found_keywords] holds for a category, after
    [matched] more of them are recorded. *)
Definition extend_found (o : option (list string)) (matched : list string)
  : option (list string) :=
  match matched, o with
  | [], _ => o
  | _ :: _, None => Some matched
  | _ :: _, Some l => Some (l ++ matched)
  end.

(** Sample postings. *)
Definition plain_description : string :=
  "We are hiring a backend developer to build and maintain web services for our logistics platform in Pune.".

Definition scam_description : string :=
  "Pay the registration fee today and your job is guaranteed. Send the amount to our agent before the interview date.".

Definition short_description : string :=
  "xxxxxxxxxxxxxxxxxxxxxxxxxxxxxxxxxxxxxxxxxxxxxxxxxxxxxxxxxxxxxxxxxxxxxxxxxxxxxxxxxxxxxxxxxxxxxxx".

(* ================================================================== *)
(** ** Texts                                                          *)
(* ================================================================== *)

Lemma startswith_spec (sub s : string) :
  startswith sub s = true <-> exists post, s = (sub ++ post)%string.
Proof.
  revert s; induction sub as [|a sub IH]; intros s; simpl.
  - split; [intros _; exists s; reflexivity | reflexivity].
  - destruct s as [|b s].
    + split; [discriminate | intros [post H]; discriminate].
    + rewrite andb_true_iff, IH. split.
      * intros [E [post ->]]. apply Ascii.eqb_eq in E; subst b.
        exists post; reflexivity.
      * intros [post H]. injection H as -> ->. split.
        -- apply Ascii.eqb_refl.
        -- exists post; reflexivity.
Qed.

Lemma contains_spec (sub s : string) :
  contains sub s = true <-> exists pre post, s = (pre ++ sub ++ post)%string.
Proof.
  induction s as [|c s IH]; simpl.
  - rewrite orb_false_r, startswith_spec. split.
    + intros [post H]; exists EmptyString, post; exact H.
    + intros [pre [post H]]. destruct pre as [|x pre]; [|discriminate].
      exists post; exact H.
  - rewrite orb_true_iff, startswith_spec, IH. split.
    + intros [[post H] | [pre [post H]]].
      * exists EmptyString, post; exact H.
      * exists (String c pre), post; simpl; rewrite H; reflexivity.
    + intros [pre [post H]]. destruct pre as [|x pre]; simpl in H.
      * left; exists post; exact H.
      * right. injection H as _ H. exists pre, post; exact H.
Qed.

Lemma append_assoc (a b c : string) : ((a ++ b) ++ c = a ++ (b ++ c))%string.
Proof. induction a as [|x a IH]; simpl; [reflexivity | rewrite IH; reflexivity]. Qed.

Lemma contains_trans (a b c : string) :
  contains a b = true -> contains b c = true -> contains a c = true.
Proof.
  rewrite !contains_spec. intros [p1 [q1 ->]] [p2 [q2 ->]].
  exists (p2 ++ p1)%string, (q1 ++ q2)%string.
  rewrite !append_assoc. reflexivity.
Qed.

Lemma contains_around (k pre d post : string) :
  contains k d = true -> contains k (pre ++ d ++ post) = true.
Proof.
  rewrite !contains_spec. intros [p [q ->]].
  exists (pre ++ p)%string, (q ++ post)%string.
  rewrite !append_assoc. reflexivity.
Qed.

Lemma lower_app (a b : string) : lower (a ++ b) = (lower a ++ lower b)%string.
Proof. induction a as [|x a IH]; simpl; [reflexivity | rewrite IH; reflexivity]. Qed.

Lemma lower_char_at (c : ascii) : Ascii.eqb (lower_char c) "@" = Ascii.eqb c "@".
Proof. destruct c as [[] [] [] [] [] [] [] []]; reflexivity. Qed.

Lemma isspace_lower_char (c : ascii) : isspace (lower_char c) = isspace c.
Proof. destruct c as [[] [] [] [] [] [] [] []]; reflexivity. Qed.

(** Lower-casing moves no ['@']: the pieces of the lower-cased text are the
    lower-cased pieces. *)
Lemma split_at_lower (s : string) : split "@" (lower s) = map lower (split "@" s).
Proof.
  induction s as [|c s IH]; simpl; [reflexivity|].
  rewrite lower_char_at. destruct (Ascii.eqb c "@").
  - rewrite IH; reflexivity.
  - rewrite IH. destruct (split "@" s); reflexivity.
Qed.

Lemma split_no_sep (sep : ascii) (s : string) :
  contains (String sep EmptyString) s = false -> split sep s = [s].
Proof.
  induction s as [|c s IH]; simpl; [reflexivity|].
  rewrite andb_true_r. rewrite Ascii.eqb_sym. destruct (Ascii.eqb c sep); simpl; [discriminate|].
  intros H. rewrite (IH H). reflexivity.
Qed.

Lemma split_with_sep (sep : ascii) (s : string) :
  contains (String sep EmptyString) s = true ->
  exists a b r, split sep s = a :: b :: r.
Proof.
  induction s as [|c s IH]; simpl; [discriminate|].
  rewrite andb_true_r. rewrite Ascii.eqb_sym. destruct (Ascii.eqb c sep); simpl.
  - intros _. destruct s as [|c' s]; simpl.
    + exists EmptyString, EmptyString, []; reflexivity.
    + destruct (Ascii.eqb c' sep).
      * eexists _, _, _; reflexivity.
      * destruct (split sep s); eexists _, _, _; reflexivity.
  - intros H. destruct (IH H) as [a [b [r ->]]]. eexists _, _, _; reflexivity.
Qed.

Lemma runs_none (p : ascii -> bool) (s : string) :
  forallb (fun c => negb (p c)) (list_ascii_of_string s) = true -> runs p s = [].
Proof.
  induction s as [|c s IH]; simpl; [reflexivity|].
  rewrite andb_true_iff. intros [H1 H2].
  destruct (p c); [discriminate | exact (IH H2)].
Qed.

Lemma split_ws_lower_blank (s : string) :
  forallb isspace (list_ascii_of_string s) = true -> split_ws (lower s) = [].
Proof.
  intros H. unfold split_ws. apply runs_none.
  induction s as [|c s IH]; simpl in *; [reflexivity|].
  apply andb_true_iff in H as [H1 H2].
  rewrite isspace_lower_char, H1. simpl. exact (IH H2).
Qed.

(* ================================================================== *)
(** ** Methods that only append                                       *)
(* ================================================================== *)

Lemma merge_init_r (st : Engine) : merge st __init__ = st.
Proof.
  destruct st as [f s]. unfold merge; simpl.
  rewrite app_nil_r, Z.add_0_r. reflexivity.
Qed.

Lemma merge_init_l (st : Engine) : merge __init__ st = st.
Proof. destruct st as [f s]. reflexivity. Qed.

Lemma merge_assoc (a b c : Engine) : merge (merge a b) c = merge a (merge b c).
Proof.
  unfold merge; simpl. rewrite <- app_assoc, Z.add_assoc. reflexivity.
Qed.

Lemma add_flag_run (t : string) (d : text) (s : string) (k : Z) (st : Engine) :
  _add_flag t d s k st = Ok (tt, merge st (mkEngine [mkFlag t d s] k)).
Proof. reflexivity. Qed.

Lemma out_ret : out (ret tt) = __init__.
Proof. reflexivity. Qed.

Lemma out_add_flag (t : string) (d : text) (s : string) (k : Z) :
  out (_add_flag t d s k) = mkEngine [mkFlag t d s] k.
Proof. reflexivity. Qed.

Lemma out_if (c : bool) (a b : M unit) :
  out (if c then a else b) = if c then out a else out b.
Proof. destruct c; reflexivity. Qed.

Lemma out_seq (a b : M unit) :
  steady a -> steady b -> out (a ;; b) = merge (out a) (out b).
Proof.
  intros Ha Hb. unfold out at 1, bind.
  rewrite Ha, Hb, merge_init_l. reflexivity.
Qed.

Lemma out_lift_ok {A : Type} (r : result A) (v : A) (k : A -> M unit) :
  r = Ok v -> out (x <- lift r ;; k x) = out (k v).
Proof. intros ->. reflexivity. Qed.

Lemma steady_ret : steady (ret tt).
Proof. intros st. rewrite out_ret, merge_init_r. reflexivity. Qed.

Lemma steady_add_flag (t : string) (d : text) (s : string) (k : Z) :
  steady (_add_flag t d s k).
Proof. intros st. apply add_flag_run. Qed.

Lemma steady_if (c : bool) (a b : M unit) :
  steady a -> steady b -> steady (if c then a else b).
Proof. destruct c; auto. Qed.

Lemma steady_seq (a b : M unit) : steady a -> steady b -> steady (a ;; b).
Proof.
  intros Ha Hb st. rewrite (out_seq a b Ha Hb).
  unfold bind. rewrite Ha, Hb, merge_assoc. reflexivity.
Qed.

Lemma steady_lift_ok {A : Type} (r : result A) (v : A) (k : A -> M unit) :
  r = Ok v -> steady (k v) -> steady (x <- lift r ;; k x).
Proof. intros -> H st. rewrite (out_lift_ok (Ok v) v k eq_refl). apply H. Qed.

#[local] Hint Resolve steady_ret steady_add_flag steady_if steady_seq : steady.

(** The guarded read of [found_keywords]: the key tested is the key read. *)
Lemma steady_found (found : dict (list string)) (k : string) (body : list string -> M unit) :
  (forall l, steady (body l)) ->
  steady (if dict_in k found then l <- lift (dict_getitem found k) ;; body l else ret tt).
Proof.
  intros H. unfold dict_in, dict_getitem.
  destruct (dict_get found k) as [l|]; [|apply steady_ret].
  apply (steady_lift_ok (Ok l) l body eq_refl), H.
Qed.

Lemma out_found (found : dict (list string)) (k : string) (body : list string -> M unit) :
  out (if dict_in k found then l <- lift (dict_getitem found k) ;; body l else ret tt)
  = match dict_get found k with
    | Some l => out (body l)
    | None => __init__
    end.
Proof.
  unfold dict_in, dict_getitem. destruct (dict_get found k); reflexivity.
Qed.

Lemma missing_website_steady (w : option string) (c : string) :
  steady (_check_missing_website w c).
Proof. unfold _check_missing_website. auto with steady. Qed.

Lemma suspicious_keywords_steady (d : string) : steady (_check_suspicious_keywords d).
Proof.
  unfold _check_suspicious_keywords.
  repeat apply steady_seq; apply steady_found; intros l; apply steady_add_flag.
Qed.

Lemma urgency_language_steady (d : string) : steady (_check_urgency_language d).
Proof.
  unfold _check_urgency_language.
  eapply steady_lift_ok; [reflexivity|]. auto with steady.
Qed.

Lemma copy_paste_content_steady (d : string) : steady (_check_copy_paste_content d).
Proof.
  unfold _check_copy_paste_content.
  eapply steady_lift_ok; [reflexivity|]. auto with steady.
Qed.

Lemma unrealistic_benefits_steady (d : string) : steady (_check_unrealistic_benefits d).
Proof.
  unfold _check_unrealistic_benefits.
  eapply steady_lift_ok; [reflexivity|]. auto with steady.
Qed.

Lemma description_quality_steady (d : string) : steady (_check_description_quality d).
Proof. unfold _check_description_quality. auto with steady. Qed.

Lemma company_legitimacy_steady (c : string) : steady (_check_company_legitimacy c).
Proof. unfold _check_company_legitimacy. auto with steady. Qed.

Lemma int_digits_raises (s : string) (acc : Z) (e : exception) :
  int_digits acc s = Raise e -> e = ValueError.
Proof.
  revert acc; induction s as [|c s IH]; intros acc; simpl; [discriminate|].
  destruct (isdigit c); [apply IH | congruence].
Qed.

Lemma int_raises (lim : nat) (s : string) (e : exception) :
  int lim s = Raise e -> e = ValueError.
Proof.
  unfold int. destruct s as [|c s]; [congruence|].
  destruct (_ && _); [congruence | apply int_digits_raises].
Qed.

(** The salary rule, by cases on the value parsed and the band's range. *)
Lemma salary_unrealistic_form (lim : nat) (salary : option string) (j : string) :
  _check_salary_unrealistic lim salary j =
  match salary with
  | Some (String _ _ as s) =>
      match salary_value lim s, dict_get UNREALISTIC_SALARY_THRESHOLDS (job_level j) with
      | Ok v, Some threshold =>
          match dict_get threshold "max", dict_get threshold "min" with
          | Some hi, Some lo =>
              if v >? hi then
                _add_flag "Unrealistic Salary (Too High)"
                  (fstring [cps "Salary of "; rupee; cps (format_commas v);
                            cps " is unusually high for a "; cps (job_level j);
                            cps " position. This is often used to attract and trap victims."])
                  "high" 13
              else if v <? lo then
                _add_flag "Unrealistic Salary (Too Low)"
                  (fstring [cps "Salary of "; rupee; cps (format_commas v);
                            cps " is unusually low for a "; cps (job_level j);
                            cps " position. This may indicate a scam or highly exploitative offer."])
                  "medium" 7
              else ret tt
          | _, _ => ret tt
          end
      | _, _ => ret tt
      end
  | _ => ret tt
  end.
Proof.
  destruct salary as [[|a s]|]; try reflexivity.
  unfold _check_salary_unrealistic, salary_value, job_level. cbv zeta.
  destruct (findall_digits_commas (String a s)) as [|n rest]; [reflexivity|].
  change (index (n :: rest) 0) with (Ok n). unfold rbind.
  destruct (int lim (remove "," n)) as [v|e] eqn:E.
  - destruct (existsb _ ["intern"; "apprentice"; "fresher"]); [reflexivity|].
    destruct (existsb _ ["junior"; "entry"; "associate"]); reflexivity.
  - apply int_raises in E; subst e. reflexivity.
Qed.

Lemma salary_unrealistic_steady (lim : nat) (salary : option string) (j : string) :
  steady (_check_salary_unrealistic lim salary j).
Proof.
  rewrite salary_unrealistic_form.
  destruct salary as [[|a s]|]; auto with steady.
  destruct (salary_value lim (String a s)); auto with steady.
  destruct (dict_get UNREALISTIC_SALARY_THRESHOLDS (job_level j)) as [th|]; auto with steady.
  destruct (dict_get th "max"), (dict_get th "min"); auto with steady.
Qed.

(** The first rule, by cases on the piece after the first ['@']. *)
Lemma email_domain_form (e : string) :
  _check_email_domain e =
  match index (split "@" e) 1 with
  | Ok d =>
      if set_in (lower d) FREE_EMAIL_DOMAINS then
        _add_flag "Free Email Domain"
          (fstring [cps "Contact email uses free email service ("; cps (lower d);
                    cps ") instead of company domain. Legitimate companies typically use official email addresses."])
          "high" 15
      else ret tt
  | Raise x => lift (Raise x)
  end.
Proof.
  unfold _check_email_domain. destruct (index (split "@" e) 1); reflexivity.
Qed.

(** The tenth rule changes nothing: it returns, or raises [IndexError]. *)
Lemma email_company_mismatch_form (e c : string) :
  _check_email_company_mismatch e c =
  match index (split "@" e) 1 with
  | Ok _ =>
      match index (split_ws (lower c)) 0 with
      | Ok _ => ret tt
      | Raise x => lift (Raise x)
      end
  | Raise x => lift (Raise x)
  end.
Proof.
  unfold _check_email_company_mismatch.
  destruct (index (split "@" e) 1) as [d|x]; [|reflexivity].
  destruct (index (split_ws (lower c)) 0) as [w|x]; [|reflexivity].
  unfold rbind.
  change ((if negb (contains w (lower d)) && (len w >? 3)
           then if negb (set_in (lower d) FREE_EMAIL_DOMAINS) then ret tt else ret tt
           else ret tt) = ret tt).
  destruct (negb (contains w (lower d)) && (len w >? 3)); [|reflexivity].
  destruct (negb (set_in (lower d) FREE_EMAIL_DOMAINS)); reflexivity.
Qed.

Lemma index_raises {A : Type} (l : list A) (i : nat) (x : exception) :
  index l i = Raise x -> x = IndexError.
Proof. unfold index. destruct (nth_error l i); congruence. Qed.

Lemma index_split_at_lower (e : string) :
  index (split "@" (lower e)) 1 = rbind (index (split "@" e) 1) (fun d => Ok (lower d)).
Proof.
  rewrite split_at_lower. unfold index.
  destruct (split "@" e) as [|a [|b r]]; reflexivity.
Qed.

Lemma bind_steady {B : Type} (m : M unit) (k : unit -> M B) (st : Engine) :
  steady m -> bind m k st = k tt (merge st (out m)).
Proof. intros H. unfold bind. rewrite H. reflexivity. Qed.

Lemma classify_risk_run (st : Engine) :
  _classify_risk st
  = Ok (tier (Z.min (risk_score st) 100),
        mkEngine (detected_flags st) (Z.min (risk_score st) 100)).
Proof.
  unfold _classify_risk, tier, bind, get_risk_score, set_risk_score; simpl.
  destruct (Z.min (risk_score st) 100 <? 30); [reflexivity|].
  destruct (Z.min (risk_score st) 100 <? 70); reflexivity.
Qed.

(** [analyze] raises where the first or the tenth rule does, and otherwise
    reports what the first nine rules find in a fresh engine, whatever the
    engine held before the call. *)
Lemma analyze_run (lim : nat) (c j d e : string) (w s : option string) (self : Engine) :
  analyze lim c j d e w s self =
  match index (split "@" e) 1 with
  | Raise x => Raise x
  | Ok _ =>
      match index (split_ws (lower c)) 0 with
      | Raise x => Raise x
      | Ok _ => Ok (report (findings lim c j d e w s))
      end
  end.
Proof.
  unfold analyze, findings. cbv zeta.
  change (bind (set_detected_flags []) ?k self) with (k tt (mkEngine [] (risk_score self))).
  cbv beta.
  change (bind (set_risk_score 0) ?k (mkEngine [] (risk_score self))) with (k tt __init__).
  cbv beta.
  rewrite email_company_mismatch_form.
  rewrite (email_domain_form (lower e)), index_split_at_lower.
  destruct (index (split "@" e) 1) as [dom|x]; [|reflexivity].
  unfold rbind.
  rewrite bind_steady by auto with steady.
  rewrite (bind_steady _ _ _ (missing_website_steady w c)).
  rewrite (bind_steady _ _ _ (suspicious_keywords_steady (lower d))).
  rewrite (bind_steady _ _ _ (urgency_language_steady (lower d))).
  rewrite (bind_steady _ _ _ (copy_paste_content_steady (lower d))).
  rewrite (bind_steady _ _ _ (unrealistic_benefits_steady (lower d))).
  rewrite (bind_steady _ _ _ (salary_unrealistic_steady lim s j)).
  rewrite (bind_steady _ _ _ (description_quality_steady d)).
  rewrite (bind_steady _ _ _ (company_legitimacy_steady c)).
  rewrite !merge_assoc, merge_init_l.
  destruct (index (split_ws (lower c)) 0) as [word|x]; [|reflexivity].
  unfold bind at 1. unfold ret at 1.
  unfold bind at 1. rewrite classify_risk_run.
  reflexivity.
Qed.

(* ================================================================== *)
(** ** Every rule adds flags of the catalogue, with their impacts     *)
(* ================================================================== *)

Lemma total_impact_app (a b : list Flag) :
  total_impact (a ++ b) = total_impact a + total_impact b.
Proof.
  unfold total_impact. induction a as [|f a IH]; simpl; [reflexivity|].
  unfold sum in *. simpl. rewrite IH. lia.
Qed.

Lemma accounted_init : accounted __init__.
Proof. split; [reflexivity | constructor]. Qed.

Lemma accounted_merge (a b : Engine) : accounted a -> accounted b -> accounted (merge a b).
Proof.
  intros [Ha Fa] [Hb Fb]. split; simpl.
  - rewrite total_impact_app. lia.
  - apply Forall_app. split; assumption.
Qed.

Lemma accounted_if (c : bool) (a b : Engine) :
  accounted a -> accounted b -> accounted (if c then a else b).
Proof. destruct c; auto. Qed.

#[local] Hint Resolve accounted_init accounted_merge accounted_if : steady.

Lemma email_domain_accounted (e : string) : accounted (out (_check_email_domain e)).
Proof.
  rewrite email_domain_form. destruct (index (split "@" e) 1); [|apply accounted_init].
  rewrite out_if, out_add_flag, out_ret. apply accounted_if; [accounted_flag | apply accounted_init].
Qed.

Lemma missing_website_accounted (w : option string) (c : string) :
  accounted (out (_check_missing_website w c)).
Proof.
  unfold _check_missing_website.
  rewrite out_if, out_add_flag, out_ret. apply accounted_if; [accounted_flag | apply accounted_init].
Qed.

Lemma found_accounted (found : dict (list string)) (k : string) (body : list string -> M unit) :
  (forall l, accounted (out (body l))) ->
  accounted (out (if dict_in k found then l <- lift (dict_getitem found k) ;; body l else ret tt)).
Proof.
  intros H. rewrite out_found. destruct (dict_get found k); [apply H | apply accounted_init].
Qed.

Lemma suspicious_keywords_accounted (d : string) :
  accounted (out (_check_suspicious_keywords d)).
Proof.
  unfold _check_suspicious_keywords. cbv zeta.
  rewrite out_seq;
    [ | apply steady_found; intros; apply steady_add_flag
      | apply steady_seq; apply steady_found; intros; apply steady_add_flag ].
  rewrite out_seq by (apply steady_found; intros; apply steady_add_flag).
  repeat apply accounted_merge; apply found_accounted; intros l; accounted_flag.
Qed.

Lemma urgency_language_accounted (d : string) : accounted (out (_check_urgency_language d)).
Proof.
  unfold _check_urgency_language.
  erewrite out_lift_ok by reflexivity. cbv zeta.
  rewrite out_if, out_add_flag, out_ret. apply accounted_if; [accounted_flag | apply accounted_init].
Qed.

Lemma copy_paste_content_accounted (d : string) :
  accounted (out (_check_copy_paste_content d)).
Proof.
  unfold _check_copy_paste_content.
  erewrite out_lift_ok by reflexivity. cbv zeta.
  rewrite out_if, out_add_flag, out_ret. apply accounted_if; [accounted_flag | apply accounted_init].
Qed.

Lemma unrealistic_benefits_accounted (d : string) :
  accounted (out (_check_unrealistic_benefits d)).
Proof.
  unfold _check_unrealistic_benefits.
  erewrite out_lift_ok by reflexivity.
  rewrite out_if, out_add_flag, out_ret. apply accounted_if; [accounted_flag | apply accounted_init].
Qed.

Lemma salary_unrealistic_accounted (lim : nat) (s : option string) (j : string) :
  accounted (out (_check_salary_unrealistic lim s j)).
Proof.
  rewrite salary_unrealistic_form.
  destruct s as [[|a s]|]; try apply accounted_init.
  destruct (salary_value lim (String a s)); [|apply accounted_init].
  destruct (dict_get UNREALISTIC_SALARY_THRESHOLDS (job_level j)) as [th|]; [|apply accounted_init].
  destruct (dict_get th "max"), (dict_get th "min"); try apply accounted_init.
  rewrite !out_if, !out_add_flag, out_ret.
  repeat apply accounted_if; try accounted_flag. apply accounted_init.
Qed.

Lemma description_quality_accounted (d : string) :
  accounted (out (_check_description_quality d)).
Proof.
  unfold _check_description_quality. cbv zeta.
  rewrite out_seq by auto with steady.
  rewrite !out_if, !out_add_flag, !out_ret.
  apply accounted_merge; apply accounted_if; try accounted_flag; apply accounted_init.
Qed.

Lemma company_legitimacy_accounted (c : string) :
  accounted (out (_check_company_legitimacy c)).
Proof.
  unfold _check_company_legitimacy. cbv zeta.
  rewrite !out_if, !out_add_flag, !out_ret.
  repeat apply accounted_if; try accounted_flag; apply accounted_init.
Qed.

Lemma findings_accounted (lim : nat) (c j d e : string) (w s : option string) :
  accounted (findings lim c j d e w s).
Proof.
  unfold findings.
  repeat apply accounted_merge.
  - apply email_domain_accounted.
  - apply missing_website_accounted.
  - apply suspicious_keywords_accounted.
  - apply urgency_language_accounted.
  - apply copy_paste_content_accounted.
  - apply unrealistic_benefits_accounted.
  - apply salary_unrealistic_accounted.
  - apply description_quality_accounted.
  - apply company_legitimacy_accounted.
Qed.

Lemma dict_get_forall {V : Type} (P : V -> Prop) (d : dict V) (k : string) (v : V) :
  Forall (fun kv => P (snd kv)) d -> dict_get d k = Some v -> P v.
Proof.
  induction 1 as [|[k' v'] r H _ IH]; simpl; [discriminate|].
  destruct (String.eqb k' k); [|exact IH].
  intros E; injection E as <-. exact H.
Qed.

Lemma score_impact_of_nonneg (t : string) : 0 <= score_impact_of t.
Proof.
  unfold score_impact_of.
  match goal with |- 0 <= match dict_get ?tbl t with _ => _ end =>
    destruct (dict_get tbl t) as [v|] eqn:E; [|lia];
    apply (dict_get_forall (fun v => 0 <= v) tbl t v); [|exact E]
  end.
  repeat constructor; simpl; lia.
Qed.

Lemma total_impact_nonneg (flags : list Flag) : 0 <= total_impact flags.
Proof.
  unfold total_impact, sum. induction flags as [|f l IH]; simpl; [lia|].
  pose proof (score_impact_of_nonneg (type f)). lia.
Qed.

(* ================================================================== *)
(** ** The keyword scan                                               *)
(* ================================================================== *)

Lemma dict_get_set {V : Type} (d : dict V) (k c : string) (v : V) :
  dict_get (dict_set d k v) c = if String.eqb k c then Some v else dict_get d c.
Proof.
  induction d as [|[k' v'] r IH]; simpl.
  - reflexivity.
  - destruct (String.eqb_spec k' k) as [->|N]; simpl.
    + destruct (String.eqb k c); reflexivity.
    + rewrite IH. destruct (String.eqb_spec k' c) as [->|N']; [|reflexivity].
      destruct (String.eqb_spec k c) as [->|_]; [contradiction N; reflexivity | reflexivity].
Qed.

Lemma record_keyword_in (cat kw c : string) (found : dict (list string)) :
  dict_in c (record_keyword cat kw found) = String.eqb cat c || dict_in c found.
Proof.
  unfold record_keyword, dict_in.
  destruct (dict_get found cat); rewrite dict_get_set; destruct (String.eqb cat c); reflexivity.
Qed.

Lemma scan_category_in (p : string -> bool) (cat c : string) (kws : list string)
    (found : dict (list string)) :
  dict_in c (fold_left (fun found_keywords keyword =>
                          if p keyword then record_keyword cat keyword found_keywords
                          else found_keywords) kws found)
  = (String.eqb cat c && existsb p kws) || dict_in c found.
Proof.
  revert found; induction kws as [|kw kws IH]; intros found; simpl.
  - rewrite andb_false_r. reflexivity.
  - rewrite IH. destruct (p kw); simpl; [|reflexivity].
    rewrite record_keyword_in. destruct (String.eqb cat c); simpl; [|reflexivity].
    rewrite orb_true_r. reflexivity.
Qed.

Lemma scan_table_in (p : string -> bool) (c : string) (table found : dict (list string)) :
  dict_in c (fold_left
               (fun found_keywords (item : string * list string) =>
                  let (category, keywords) := item in
                  fold_left (fun found_keywords keyword =>
                               if p keyword then record_keyword category keyword found_keywords
                               else found_keywords) keywords found_keywords)
               table found)
  = existsb (fun item => String.eqb (fst item) c && existsb p (snd item)) table
    || dict_in c found.
Proof.
  revert found; induction table as [|[cat kws] table IH]; intros found; simpl.
  - reflexivity.
  - rewrite IH, scan_category_in.
    destruct (String.eqb cat c && existsb p kws); simpl; [|reflexivity].
    rewrite orb_true_r. reflexivity.
Qed.

(** A category is a key of [found_keywords] exactly when one of its
    keywords occurs in the description. *)
Lemma scan_keywords_in (c d : string) :
  dict_in c (scan_keywords d)
  = existsb (fun item => String.eqb (fst item) c && any_in (snd item) d) SUSPICIOUS_KEYWORDS.
Proof.
  unfold scan_keywords. rewrite scan_table_in. apply orb_false_r.
Qed.

Lemma scan_money_request (d : string) :
  dict_in "money_request" (scan_keywords d) = any_in (keywords_of "money_request") d.
Proof.
  rewrite scan_keywords_in. generalize any_in; intros H.
  simpl. apply orb_false_r.
Qed.

Lemma scan_guaranteed (d : string) :
  dict_in "guaranteed" (scan_keywords d) = any_in (keywords_of "guaranteed") d.
Proof.
  rewrite scan_keywords_in. generalize any_in; intros H.
  simpl. apply orb_false_r.
Qed.

Lemma scan_work_from_home (d : string) :
  dict_in "work_from_home_too_good" (scan_keywords d)
  = any_in (keywords_of "work_from_home_too_good") d.
Proof.
  rewrite scan_keywords_in. generalize any_in; intros H.
  simpl. apply orb_false_r.
Qed.

(* ================================================================== *)
(** ** The flag types each rule appends                               *)
(* ================================================================== *)

Lemma types_out_if (c : bool) (a b : M unit) :
  types_out (if c then a else b) = if c then types_out a else types_out b.
Proof. destruct c; reflexivity. Qed.

Lemma types_out_seq (a b : M unit) :
  steady a -> steady b -> types_out (a ;; b) = types_out a ++ types_out b.
Proof.
  intros Ha Hb. unfold types_out. rewrite (out_seq a b Ha Hb).
  unfold flag_types; simpl. apply map_app.
Qed.

Lemma types_out_found (found : dict (list string)) (k t : string)
    (text_of : list string -> text) (sev : string) (impact : Z) :
  types_out (if dict_in k found then
               l <- lift (dict_getitem found k) ;; _add_flag t (text_of l) sev impact
             else ret tt)
  = if dict_in k found then [t] else [].
Proof.
  unfold types_out. rewrite out_found. unfold dict_in.
  destruct (dict_get found k); reflexivity.
Qed.

Lemma email_domain_types (e : string) :
  types_out (_check_email_domain e)
  = match index (split "@" e) 1 with
    | Ok d => if set_in (lower d) FREE_EMAIL_DOMAINS then ["Free Email Domain"] else []
    | Raise _ => []
    end.
Proof.
  rewrite email_domain_form. destruct (index (split "@" e) 1) as [d|x]; [|reflexivity].
  rewrite types_out_if. reflexivity.
Qed.

Lemma missing_website_types (w : option string) (c : string) :
  types_out (_check_missing_website w c)
  = if py_not w then ["Missing Company Website"] else [].
Proof. unfold _check_missing_website. rewrite types_out_if. reflexivity. Qed.

Lemma suspicious_keywords_types (d : string) :
  types_out (_check_suspicious_keywords d)
  = (if any_in (keywords_of "money_request") d then ["Payment Request"] else [])
    ++ (if any_in (keywords_of "guaranteed") d then ["Unrealistic Guarantees"] else [])
    ++ (if any_in (keywords_of "work_from_home_too_good") d
        then ["Unrealistic Work-from-Home Offer"] else []).
Proof.
  unfold _check_suspicious_keywords. cbv zeta.
  rewrite types_out_seq;
    [ | apply steady_found; intros; apply steady_add_flag
      | apply steady_seq; apply steady_found; intros; apply steady_add_flag ].
  rewrite types_out_seq by (apply steady_found; intros; apply steady_add_flag).
  rewrite (types_out_found _ "money_request" _
             (fun l => fstring [cps "Job posting mentions payment/fees: "; cps (join ", " l);
                                cps ". Legitimate employers never ask for payments from candidates."])).
  rewrite (types_out_found _ "guaranteed" _
             (fun l => fstring [cps "Posting guarantees employment: "; cps (join ", " l);
                                cps ". No legitimate recruitment guarantees jobs."])).
  rewrite (types_out_found _ "work_from_home_too_good" _
             (fun l => fstring [cps "Suspicious work-from-home claims: "; cps (join ", " l);
                                cps ". Be cautious of "; cps dquote; cps "earn money while sleeping";
                                cps dquote; cps " type offers."])).
  rewrite scan_money_request, scan_guaranteed, scan_work_from_home. reflexivity.
Qed.

Lemma urgency_language_types (d : string) :
  types_out (_check_urgency_language d)
  = if count_in (keywords_of "urgency") d >=? 2 then ["Excessive Urgency"] else [].
Proof.
  unfold _check_urgency_language, types_out.
  erewrite out_lift_ok by reflexivity. cbv zeta.
  rewrite out_if.
  match goal with |- context [if ?b then _ else _] =>
    change b with (count_in (keywords_of "urgency") d >=? 2) end.
  destruct (count_in (keywords_of "urgency") d >=? 2); reflexivity.
Qed.

Lemma copy_paste_content_types (d : string) :
  types_out (_check_copy_paste_content d)
  = if count_in (keywords_of "copy_paste") d >? 0 then ["Generic/Copy-Paste Content"] else [].
Proof.
  unfold _check_copy_paste_content, types_out.
  erewrite out_lift_ok by reflexivity. cbv zeta.
  rewrite out_if.
  match goal with |- context [if ?b then _ else _] =>
    change b with (count_in (keywords_of "copy_paste") d >? 0) end.
  destruct (count_in (keywords_of "copy_paste") d >? 0); reflexivity.
Qed.

Lemma unrealistic_benefits_types (d : string) :
  types_out (_check_unrealistic_benefits d)
  = if any_in (keywords_of "unrealistic_benefits") d then ["Unrealistic Benefits"] else [].
Proof.
  unfold _check_unrealistic_benefits, types_out.
  erewrite out_lift_ok by reflexivity.
  rewrite out_if.
  match goal with |- context [if ?b then _ else _] =>
    change b with (any_in (keywords_of "unrealistic_benefits") d) end.
  destruct (any_in (keywords_of "unrealistic_benefits") d); reflexivity.
Qed.

Lemma salary_unrealistic_types (lim : nat) (salary : option string) (j : string) :
  types_out (_check_salary_unrealistic lim salary j)
  = match salary with
    | Some (String _ _ as s) =>
        match salary_value lim s with
        | Ok v =>
            if v >? threshold_of j "max" then ["Unrealistic Salary (Too High)"]
            else if v <? threshold_of j "min" then ["Unrealistic Salary (Too Low)"]
            else []
        | Raise _ => []
        end
    | _ => []
    end.
Proof.
  rewrite salary_unrealistic_form.
  destruct salary as [[|a s]|]; try reflexivity.
  destruct (salary_value lim (String a s)) as [v|x]; [|reflexivity].
  unfold threshold_of, job_level.
  destruct (existsb _ ["intern"; "apprentice"; "fresher"]);
    [|destruct (existsb _ ["junior"; "entry"; "associate"])];
    cbn [dict_get UNREALISTIC_SALARY_THRESHOLDS String.eqb Ascii.eqb Bool.eqb];
    rewrite !types_out_if; reflexivity.
Qed.

Lemma description_quality_types (d : string) :
  types_out (_check_description_quality d)
  = (if len (strip d) <? 100 then ["Poor Job Description Quality"] else [])
    ++ (if count_in ["recieve"; "occured"; "sucessful"; "applicaton"; "seperete"] (lower d) >=? 2
        then ["Poor Grammar/Spelling"] else []).
Proof.
  unfold _check_description_quality. cbv zeta.
  rewrite types_out_seq by auto with steady.
  rewrite !types_out_if. reflexivity.
Qed.

Lemma company_legitimacy_types (c : string) :
  types_out (_check_company_legitimacy c)
  = if any_in ["private"; "limited"; "corporation"; "international"] (lower c)
       && (count " " (lower c) >? 4)
    then ["Suspicious Company Name Pattern"] else [].
Proof.
  unfold _check_company_legitimacy. cbv zeta.
  rewrite !types_out_if. unfold any_in.
  destruct (existsb _ _); [|reflexivity].
  destruct (count " " (lower c) >? 4); reflexivity.
Qed.

Lemma findings_types (lim : nat) (c j d e : string) (w s : option string) :
  flag_types (detected_flags (findings lim c j d e w s))
  = types_out (_check_email_domain (lower e))
    ++ types_out (_check_missing_website w c)
    ++ types_out (_check_suspicious_keywords (lower d))
    ++ types_out (_check_urgency_language (lower d))
    ++ types_out (_check_copy_paste_content (lower d))
    ++ types_out (_check_unrealistic_benefits (lower d))
    ++ types_out (_check_salary_unrealistic lim s j)
    ++ types_out (_check_description_quality d)
    ++ types_out (_check_company_legitimacy c).
Proof.
  unfold findings, types_out, flag_types, merge; simpl.
  rewrite !map_app. reflexivity.
Qed.

Lemma impact_sum_app (a b : list string) : impact_sum (a ++ b) = impact_sum a + impact_sum b.
Proof.
  unfold impact_sum, sum. induction a as [|t a IH]; simpl; [reflexivity|].
  rewrite IH. lia.
Qed.

Lemma total_impact_types (flags : list Flag) :
  total_impact flags = impact_sum (flag_types flags).
Proof.
  unfold total_impact, impact_sum, flag_types. rewrite map_map. reflexivity.
Qed.

Lemma findings_score (lim : nat) (c j d e : string) (w s : option string) :
  risk_score (findings lim c j d e w s)
  = impact_sum (flag_types (detected_flags (findings lim c j d e w s))).
Proof.
  rewrite <- total_impact_types. apply findings_accounted.
Qed.

(** What [analyze] returns when it returns. *)
Lemma analyze_returns (lim : nat) (c j d e : string) (w s : option string)
    (self self' : Engine) (score : Z) (classification : string) (flags : list Flag) :
  analyze lim c j d e w s self = Ok (score, classification, flags, self') ->
  flags = detected_flags (findings lim c j d e w s)
  /\ score = Z.min (risk_score (findings lim c j d e w s)) 100
  /\ classification = tier score
  /\ self' = mkEngine flags score.
Proof.
  rewrite analyze_run.
  destruct (index (split "@" e) 1); [|discriminate].
  destruct (index (split_ws (lower c)) 0); [|discriminate].
  unfold report. intros H. injection H as <- <- <- <-.
  repeat split.
Qed.

(* ================================================================== *)
(** ** Which rule a flag comes from                                   *)
(* ================================================================== *)

Lemma impact_sum_nonneg (types : list string) : 0 <= impact_sum types.
Proof.
  unfold impact_sum, sum. induction types as [|t l IH]; simpl; [lia|].
  pose proof (score_impact_of_nonneg t). lia.
Qed.

Lemma any_in_true (keywords : list string) (d k : string) :
  In k keywords -> contains k d = true -> any_in keywords d = true.
Proof.
  intros Hk Hc. unfold any_in. apply existsb_exists. exists k. split; assumption.
Qed.

(** The two salary flags come from the salary rule only. *)
Lemma salary_flag_source (lim : nat) (c j d e : string) (w s : option string) (t : string) :
  In t salary_flag_types ->
  In t (flag_types (detected_flags (findings lim c j d e w s))) ->
  In t (types_out (_check_salary_unrealistic lim s j)).
Proof.
  intros Ht H. rewrite findings_types in H.
  rewrite email_domain_types, missing_website_types, suspicious_keywords_types,
    urgency_language_types, copy_paste_content_types, unrealistic_benefits_types,
    description_quality_types, company_legitimacy_types in H.
  destruct Ht as [<-|[<-|[]]]; trace_flag H; exact H.
Qed.

(** The company-name flag comes from the company-name rule only. *)
Lemma company_flag_source (lim : nat) (c j d e : string) (w s : option string) :
  In "Suspicious Company Name Pattern" (flag_types (detected_flags (findings lim c j d e w s)))
  <-> In "Suspicious Company Name Pattern" (types_out (_check_company_legitimacy c)).
Proof.
  rewrite findings_types. split.
  - intros H.
    rewrite email_domain_types, missing_website_types, suspicious_keywords_types,
      urgency_language_types, copy_paste_content_types, unrealistic_benefits_types,
      salary_unrealistic_types, description_quality_types in H.
    trace_flag H; exact H.
  - intros H. rewrite !in_app_iff. tauto.
Qed.

(* ================================================================== *)
(** ** The score and the classification                               *)
(* ================================================================== *)

Example lower_ex : lower "HR@Gmail.COM" = "hr@gmail.com".
Proof. reflexivity. Qed.

Example split_ex : split "@" "a@b@c" = ["a"; "b"; "c"].
Proof. reflexivity. Qed.

Example split_ws_ex : split_ws "  Acme  Corp " = ["Acme"; "Corp"].
Proof. reflexivity. Qed.

Example findall_ex :
  findall_digits_commas "Rs 1,50,000 to 2,00,000" = ["1,50,000"; "2,00,000"].
Proof. reflexivity. Qed.

Example strip_ex : strip "  a b  " = "a b".
Proof. reflexivity. Qed.

Example format_commas_ex :
  format_commas 1234567 = "1,234,567" /\ format_commas 123 = "123" /\ format_commas 0 = "0".
Proof. repeat split; reflexivity. Qed.

Example int_ex : int 4300 "150000" = Ok 150000 /\ int 4300 "" = Raise ValueError.
Proof. split; reflexivity. Qed.

(** Scenario 1 of the specification: a free mail domain and no website. *)
Example scenario_free_mail_no_website :
  exists flags self',
    analyze 4300 "Acme" "Software Engineer" plain_description "jobs@gmail.com" None None __init__
    = Ok (27, "Legitimate", flags, self')
    /\ flag_types flags = ["Free Email Domain"; "Missing Company Website"].
Proof. eexists _, _. split; [vm_compute; reflexivity | reflexivity]. Qed.

(** [analyze] returns on every posting whose email has an ['@'] and whose
    company name has a word. *)
Lemma analyze_returns_on_valid_input (lim : nat) (c j d e : string) (w s : option string)
    (self : Engine) :
  contains "@" e = true ->
  split_ws (lower c) <> [] ->
  analyze lim c j d e w s self = Ok (report (findings lim c j d e w s)).
Proof.
  intros He Hc. rewrite analyze_run.
  destruct (split_with_sep "@" e He) as [a [b [r ->]]].
  destruct (split_ws (lower c)) as [|word words]; [contradiction Hc; reflexivity|].
  reflexivity.
Qed.

(** What the engine held before the call does not matter. *)
Lemma analyze_ignores_previous_state (lim : nat) (c j d e : string) (w s : option string)
    (self1 self2 : Engine) :
  analyze lim c j d e w s self1 = analyze lim c j d e w s self2.
Proof. rewrite !analyze_run. reflexivity. Qed.

(** Scenario 5 of the specification: a short description and nothing else. *)
Example scenario_short_description :
  exists flags self',
    analyze 4300 "Acme" "Software Engineer" "We build logistics software in Pune now."
      "hr@acme.com" (Some "https://acme.com") None __init__
    = Ok (6, "Legitimate", flags, self')
    /\ len "We build logistics software in Pune now." = 40
    /\ flag_types flags = ["Poor Job Description Quality"].
Proof. eexists _, _. split; [vm_compute; reflexivity | split; reflexivity]. Qed.

(** C1: when [analyze] returns, the score it returns is an integer between
    0 and 100: it is the sum of the impacts of the flags it returns, none of
    them negative, cut at 100, and the classification is the tier of that
    cut score. *)
Theorem analyze_risk_score_bounded (lim : nat) (c j d e : string) (w s : option string)
    (self self' : Engine) (score : Z) (classification : string) (flags : list Flag) :
  analyze lim c j d e w s self = Ok (score, classification, flags, self') ->
  0 <= score <= 100
  /\ score = Z.min (total_impact flags) 100
  /\ Forall (fun f => 0 <= score_impact_of (type f)) flags
  /\ classification = tier score.
Proof.
  intros H. apply analyze_returns in H as (-> & -> & -> & _).
  pose proof (findings_accounted lim c j d e w s) as [Hs _].
  pose proof (total_impact_nonneg (detected_flags (findings lim c j d e w s))) as Hn.
  split; [lia|]. split; [rewrite Hs; reflexivity|]. split; [|reflexivity].
  apply Forall_forall. intros f _. apply score_impact_of_nonneg.
Qed.

Lemma analyze_risk_score_bounded_witness :
  exists flags self',
    analyze 4300 "Alpha Beta Gamma Delta E Limited" "Junior Engineer"
      "URGENT asap Dear Applicant earn while you sleep easy money recieve occured guaranteed fee"
      "hr@YAHOO.com" (Some "") (Some "Rs. 99,99,99,999") __init__
    = Ok (100, "Fake", flags, self')
    /\ total_impact flags = 144
    /\ 0 <= 100 <= 100.
Proof.
  eexists _, _. split; [vm_compute; reflexivity|]. split; [reflexivity|].
  eapply (analyze_risk_score_bounded 4300 "Alpha Beta Gamma Delta E Limited" "Junior Engineer"
            "URGENT asap Dear Applicant earn while you sleep easy money recieve occured guaranteed fee"
            "hr@YAHOO.com" (Some "") (Some "Rs. 99,99,99,999") __init__).
  vm_compute; reflexivity.
Defined.

(** C2: when [analyze] returns, the classification is fixed by the score it
    returns: Legitimate exactly below 30, Suspicious exactly from 30 to 69,
    Fake exactly from 70 on; the three cases cover every score and no two of
    them overlap. *)
Theorem analyze_classification_by_score (lim : nat) (c j d e : string) (w s : option string)
    (self self' : Engine) (score : Z) (classification : string) (flags : list Flag) :
  analyze lim c j d e w s self = Ok (score, classification, flags, self') ->
  (classification = "Legitimate" <-> score < 30)
  /\ (classification = "Suspicious" <-> 30 <= score < 70)
  /\ (classification = "Fake" <-> 70 <= score)
  /\ (score = 30 -> classification = "Suspicious")
  /\ (score = 70 -> classification = "Fake").
Proof.
  intros H. apply analyze_returns in H as (_ & _ & -> & _).
  unfold tier.
  destruct (Z.ltb_spec score 30); [|destruct (Z.ltb_spec score 70)];
    repeat split; intros; try lia; try discriminate; try reflexivity.
Qed.

Lemma analyze_classification_by_score_witness :
  exists flags self',
    analyze 4300 "Acme" "Software Engineer" scam_description "hr@gmail.com" None None __init__
    = Ok (70, "Fake", flags, self')
    /\ ("Fake" = "Fake" <-> 70 <= 70).
Proof.
  eexists _, _. split; [vm_compute; reflexivity|].
  eapply (analyze_classification_by_score 4300 "Acme" "Software Engineer" scam_description
            "hr@gmail.com" None None __init__).
  vm_compute; reflexivity.
Defined.

(** A score of exactly 30 is reached, and is Suspicious. *)
Example score_thirty_is_suspicious :
  exists flags self',
    analyze 4300 "Acme" "Software Engineer"
      (plain_description ++ " Selection is guaranteed.")%string
      "hr@acme.com" None None __init__
    = Ok (30, "Suspicious", flags, self').
Proof. eexists _, _. vm_compute; reflexivity. Qed.

(* ================================================================== *)
(** ** Failures                                                       *)
(* ================================================================== *)

(** C7: on an email with no ['@'] the whole call fails: [analyze] raises
    [IndexError] at the first rule, whatever the other fields are, and
    returns no score, classification or flags; no domain is made up. *)
Theorem analyze_email_without_at_raises (lim : nat) (c j d e : string) (w s : option string)
    (self : Engine) :
  contains "@" e = false ->
  analyze lim c j d e w s self = Raise IndexError.
Proof.
  intros H. rewrite analyze_run, (split_no_sep "@" e H). reflexivity.
Qed.

Lemma analyze_email_without_at_raises_witness :
  contains "@" "hr.acme.com" = false
  /\ analyze 4300 "Acme" "Software Engineer" plain_description "hr.acme.com" None None __init__
     = Raise IndexError.
Proof.
  split; [reflexivity|].
  apply (analyze_email_without_at_raises 4300 "Acme" "Software Engineer" plain_description
           "hr.acme.com" None None __init__).
  reflexivity.
Defined.

(** The first rule alone already fails on such an email. *)
Lemma email_domain_without_at_raises (e : string) (st : Engine) :
  contains "@" e = false -> _check_email_domain (lower e) st = Raise IndexError.
Proof.
  intros H. rewrite email_domain_form, index_split_at_lower, (split_no_sep "@" e H).
  reflexivity.
Qed.

(** C10: a company name made of whitespace only (or of nothing) makes
    [analyze] raise [IndexError] although the email has its ['@']: the
    tenth rule takes the first word of the name, and there is none. *)
Theorem analyze_blank_company_raises (lim : nat) (c j d e : string) (w s : option string)
    (self : Engine) :
  forallb isspace (list_ascii_of_string c) = true ->
  contains "@" e = true ->
  analyze lim c j d e w s self = Raise IndexError.
Proof.
  intros Hc He. rewrite analyze_run.
  destruct (split_with_sep "@" e He) as [a [b [r ->]]].
  rewrite (split_ws_lower_blank c Hc). reflexivity.
Qed.

Lemma analyze_blank_company_raises_witness :
  "   " <> EmptyString
  /\ forallb isspace (list_ascii_of_string "   ") = true
  /\ count "@" "hr@acme.com" = 1
  /\ analyze 4300 "   " "Software Engineer" plain_description "hr@acme.com"
       (Some "https://acme.com") (Some "500000") __init__
     = Raise IndexError.
Proof.
  split; [discriminate|]. split; [reflexivity|]. split; [reflexivity|].
  apply (analyze_blank_company_raises 4300 "   " "Software Engineer" plain_description
           "hr@acme.com" (Some "https://acme.com") (Some "500000") __init__);
    reflexivity.
Defined.

(* ================================================================== *)
(** ** The salary rule and the tenth rule                             *)
(* ================================================================== *)

(** C8: a salary text with no run of digits and commas, or whose first run
    does not convert to an integer, makes the salary rule return with the
    engine unchanged, and [analyze] does what it does with no salary:
    the same result, or the same exception. *)
Theorem analyze_unparsable_salary_skipped (lim : nat) (c j d e : string) (w : option string)
    (salary : string) (self : Engine) :
  findall_digits_commas salary = []
  \/ (exists number rest,
        findall_digits_commas salary = number :: rest
        /\ int lim (remove "," number) = Raise ValueError) ->
  (forall st, _check_salary_unrealistic lim (Some salary) j st = Ok (tt, st))
  /\ analyze lim c j d e w (Some salary) self = analyze lim c j d e w None self.
Proof.
  intros H.
  assert (E : _check_salary_unrealistic lim (Some salary) j = ret tt).
  { rewrite salary_unrealistic_form. destruct salary as [|a t]; [reflexivity|].
    unfold salary_value.
    destruct H as [-> | (number & rest & -> & H)]; [reflexivity|].
    change (index (number :: rest) 0) with (Ok number). unfold rbind.
    rewrite H. reflexivity. }
  split.
  - intros st. rewrite E. reflexivity.
  - rewrite !analyze_run. unfold findings. rewrite E. reflexivity.
Qed.

Lemma analyze_unparsable_salary_skipped_witness :
  findall_digits_commas "abc" = []
  /\ (forall st, _check_salary_unrealistic 4300 (Some "abc") "Software Engineer" st = Ok (tt, st))
  /\ analyze 4300 "Acme" "Software Engineer" plain_description "hr@acme.com" None (Some "abc") __init__
     = analyze 4300 "Acme" "Software Engineer" plain_description "hr@acme.com" None None __init__.
Proof.
  split; [reflexivity|].
  apply (analyze_unparsable_salary_skipped 4300 "Acme" "Software Engineer" plain_description
           "hr@acme.com" None "abc" __init__).
  left. reflexivity.
Defined.

(** A run of commas alone is found, and does not convert. *)
Example salary_commas_only :
  findall_digits_commas "negotiable ,, monthly" = [",,"]
  /\ int 4300 (remove "," ",,") = Raise ValueError.
Proof. split; reflexivity. Qed.

(** C9: the tenth rule, when it returns, leaves the engine as it found it,
    so what [analyze] returns is what the first nine rules found: its flags
    are theirs, every one of a type of the catalogue, and its score is
    their score cut at 100. *)
Theorem email_company_mismatch_is_noop (lim : nat) (c j d e : string) (w s : option string)
    (self self' : Engine) (score : Z) (classification : string) (flags : list Flag) :
  analyze lim c j d e w s self = Ok (score, classification, flags, self') ->
  (forall st st', _check_email_company_mismatch e c st = Ok (tt, st') -> st' = st)
  /\ flags = detected_flags (findings lim c j d e w s)
  /\ score = Z.min (risk_score (findings lim c j d e w s)) 100
  /\ Forall (fun f => In (type f) (map fst CATALOGUE)) flags.
Proof.
  intros H. apply analyze_returns in H as (-> & -> & _ & _).
  split; [|split; [reflexivity|split; [reflexivity|]]].
  - intros st st'. rewrite email_company_mismatch_form.
    destruct (index (split "@" e) 1); [|discriminate].
    destruct (index (split_ws (lower c)) 0); [|discriminate].
    unfold ret. congruence.
  - pose proof (findings_accounted lim c j d e w s) as [_ F].
    eapply Forall_impl; [|exact F].
    intros f Hf. change (type f) with (fst (type f, severity f)).
    apply in_map. exact Hf.
Qed.

Lemma email_company_mismatch_is_noop_witness :
  exists flags self',
    analyze 4300 "Globex" "Software Engineer" plain_description "hr@initech.com" None None __init__
    = Ok (12, "Legitimate", flags, self')
    /\ flag_types flags = ["Missing Company Website"]
    /\ Forall (fun f => In (type f) (map fst CATALOGUE)) flags.
Proof.
  eexists _, _. split; [vm_compute; reflexivity|]. split; [reflexivity|].
  eapply (email_company_mismatch_is_noop 4300 "Globex" "Software Engineer" plain_description
            "hr@initech.com" None None __init__).
  vm_compute; reflexivity.
Defined.

(** The salary rule appends nothing, or one of its two flags. *)
Lemma salary_unrealistic_types_cases (lim : nat) (s : option string) (j : string) :
  types_out (_check_salary_unrealistic lim s j) = []
  \/ types_out (_check_salary_unrealistic lim s j) = ["Unrealistic Salary (Too High)"]
  \/ types_out (_check_salary_unrealistic lim s j) = ["Unrealistic Salary (Too Low)"].
Proof.
  rewrite salary_unrealistic_types.
  destruct s as [[|a t]|]; auto.
  destruct (salary_value lim (String a t)); auto.
  destruct (_ >? _); auto. destruct (_ <? _); auto.
Qed.

(** C4: in what [analyze] returns, the flags Unrealistic Salary (Too High)
    and Unrealistic Salary (Too Low) never come together, and neither comes
    when the salary value parsed lies between the ['min'] and the ['max']
    of the band of the job title, both included. *)
Theorem analyze_salary_flags_exclusive (lim : nat) (c j d e : string) (w s : option string)
    (self self' : Engine) (score : Z) (classification : string) (flags : list Flag) :
  analyze lim c j d e w s self = Ok (score, classification, flags, self') ->
  ~ (In "Unrealistic Salary (Too High)" (flag_types flags)
     /\ In "Unrealistic Salary (Too Low)" (flag_types flags))
  /\ (forall salary v,
        s = Some salary ->
        salary_value lim salary = Ok v ->
        threshold_of j "min" <= v <= threshold_of j "max" ->
        ~ In "Unrealistic Salary (Too High)" (flag_types flags)
        /\ ~ In "Unrealistic Salary (Too Low)" (flag_types flags)).
Proof.
  intros H. apply analyze_returns in H as (-> & _ & _ & _).
  split.
  - intros [Hh Hl].
    apply salary_flag_source in Hh; [|simpl; tauto].
    apply salary_flag_source in Hl; [|simpl; tauto].
    destruct (salary_unrealistic_types_cases lim s j) as [E|[E|E]];
      rewrite E in Hh, Hl; simpl in Hh, Hl;
      repeat match goal with
             | H : _ \/ _ |- _ => destruct H
             | H : False |- _ => destruct H
             | H : _ = _ |- _ => discriminate H
             end.
  - intros salary v -> Hv Hband.
    assert (E : types_out (_check_salary_unrealistic lim (Some salary) j) = []).
    { rewrite salary_unrealistic_types. destruct salary as [|a t]; [reflexivity|].
      rewrite Hv.
      destruct (Z.gtb_spec v (threshold_of j "max")); [lia|].
      destruct (Z.ltb_spec v (threshold_of j "min")); [lia|]. reflexivity. }
    split; intros Hin; apply salary_flag_source in Hin; try (simpl; tauto);
      rewrite E in Hin; exact Hin.
Qed.

Lemma analyze_salary_flags_exclusive_witness :
  exists flags self',
    analyze 4300 "Acme" "Software Engineer Intern" plain_description "hr@acme.com"
      (Some "https://acme.com") (Some "50000 per day") __init__
    = Ok (0, "Legitimate", flags, self')
    /\ salary_value 4300 "50000 per day" = Ok 50000
    /\ threshold_of "Software Engineer Intern" "min" = 5000
    /\ threshold_of "Software Engineer Intern" "max" = 500000
    /\ ~ (In "Unrealistic Salary (Too High)" (flag_types flags)
          /\ In "Unrealistic Salary (Too Low)" (flag_types flags)).
Proof.
  eexists _, _. split; [vm_compute; reflexivity|].
  split; [reflexivity|]. split; [reflexivity|]. split; [reflexivity|].
  eapply (analyze_salary_flags_exclusive 4300 "Acme" "Software Engineer Intern"
            plain_description "hr@acme.com" (Some "https://acme.com")
            (Some "50000 per day") __init__).
  vm_compute; reflexivity.
Defined.

(** The bands, and a salary above and one below. *)
Example salary_bands :
  threshold_of "Summer Intern" "min" = 5000 /\ threshold_of "Summer Intern" "max" = 500000
  /\ threshold_of "Junior Developer" "min" = 200000
  /\ threshold_of "Junior Developer" "max" = 3000000
  /\ threshold_of "Manager" "min" = 500000 /\ threshold_of "Manager" "max" = 5000000.
Proof. repeat split; reflexivity. Qed.

Example salary_too_high_and_too_low :
  types_out (_check_salary_unrealistic 4300 (Some "Rs. 60,00,000") "Manager")
  = ["Unrealistic Salary (Too High)"]
  /\ types_out (_check_salary_unrealistic 4300 (Some "4999") "Summer Intern")
     = ["Unrealistic Salary (Too Low)"]
  /\ types_out (_check_salary_unrealistic 4300 (Some "5000") "Summer Intern") = [].
Proof. repeat split; reflexivity. Qed.

(* ================================================================== *)
(** ** Scenario 2: a payment request and a guarantee                  *)
(* ================================================================== *)

(** C3: with "registration fee" and "guaranteed" in the lower-cased
    description, the email hr@gmail.com and no website, what [analyze]
    returns holds the flags Payment Request (impact 25), Unrealistic
    Guarantees (18), Free Email Domain (15) and Missing Company Website
    (12); the score is the sum of the impacts of the flags cut at 100, so
    it is at least 70 and the classification is Fake. *)
Theorem analyze_payment_and_guarantee_is_fake (lim : nat) (c j d : string)
    (w s : option string) (self self' : Engine) (score : Z) (classification : string)
    (flags : list Flag) :
  contains "registration fee" (lower d) = true ->
  contains "guaranteed" (lower d) = true ->
  py_not w = true ->
  analyze lim c j d "hr@gmail.com" w s self = Ok (score, classification, flags, self') ->
  (In "Payment Request" (flag_types flags) /\ score_impact_of "Payment Request" = 25)
  /\ (In "Unrealistic Guarantees" (flag_types flags)
      /\ score_impact_of "Unrealistic Guarantees" = 18)
  /\ (In "Free Email Domain" (flag_types flags) /\ score_impact_of "Free Email Domain" = 15)
  /\ (In "Missing Company Website" (flag_types flags)
      /\ score_impact_of "Missing Company Website" = 12)
  /\ score = Z.min (total_impact flags) 100
  /\ 70 <= score
  /\ classification = "Fake".
Proof.
  intros Hfee Hg Hw H. apply analyze_returns in H as (-> & -> & -> & _).
  assert (Hm : any_in (keywords_of "money_request") (lower d) = true).
  { apply (any_in_true _ _ "fee"); [simpl; tauto|].
    apply (contains_trans "fee" "registration fee"); [reflexivity | exact Hfee]. }
  assert (Hu : any_in (keywords_of "guaranteed") (lower d) = true).
  { apply (any_in_true _ _ "guaranteed"); [simpl; tauto | exact Hg]. }
  rewrite findings_score.
  rewrite total_impact_types.
  assert (HT : exists rest,
             flag_types (detected_flags (findings lim c j d "hr@gmail.com" w s))
             = ["Free Email Domain"; "Missing Company Website"; "Payment Request";
                "Unrealistic Guarantees"] ++ rest).
  { rewrite findings_types, email_domain_types, missing_website_types,
      suspicious_keywords_types, Hw, Hm, Hu.
    change (index (split "@" (lower "hr@gmail.com")) 1) with (Ok "gmail.com").
    change (set_in (lower "gmail.com") FREE_EMAIL_DOMAINS) with true.
    eexists. cbn [app]. reflexivity. }
  destruct HT as [rest ->].
  rewrite impact_sum_app.
  change (impact_sum ["Free Email Domain"; "Missing Company Website"; "Payment Request";
                      "Unrealistic Guarantees"]) with 70.
  pose proof (impact_sum_nonneg rest) as Hr.
  assert (Hs : 70 <= Z.min (70 + impact_sum rest) 100) by lia.
  repeat split; try reflexivity; try (simpl; tauto); try exact Hs.
  unfold tier.
  destruct (Z.ltb_spec (Z.min (70 + impact_sum rest) 100) 30); [lia|].
  destruct (Z.ltb_spec (Z.min (70 + impact_sum rest) 100) 70); [lia|]. reflexivity.
Qed.

Lemma analyze_payment_and_guarantee_is_fake_witness :
  exists flags self',
    analyze 4300 "Acme" "Software Engineer" scam_description "hr@gmail.com" None None __init__
    = Ok (70, "Fake", flags, self')
    /\ flag_types flags
       = ["Free Email Domain"; "Missing Company Website"; "Payment Request";
          "Unrealistic Guarantees"]
    /\ 70 <= 70.
Proof.
  eexists _, _. split; [vm_compute; reflexivity|]. split; [reflexivity|].
  eapply (analyze_payment_and_guarantee_is_fake 4300 "Acme" "Software Engineer"
            scam_description None None __init__);
    [reflexivity | reflexivity | reflexivity | vm_compute; reflexivity].
Defined.

(* ================================================================== *)
(** ** The company-name rule                                          *)
(* ================================================================== *)

(** C6: the rule tells a name of too many words by its space characters
    ([count(' ') > 4], with the comment "Too many words"), so it is not the
    rule of more than 4 words. A name of three words set apart by three
    spaces each has six spaces and gets the flag; a name of five words, one
    of them "limited", has four spaces and gets none. *)
Theorem company_name_rule_counts_spaces :
  (exists score classification flags self',
     analyze 4300 "Apex   Limited   Group" "Software Engineer" plain_description
       "hr@apex.com" (Some "https://apex.com") None __init__
     = Ok (score, classification, flags, self')
     /\ split_ws "Apex   Limited   Group" = ["Apex"; "Limited"; "Group"]
     /\ count " " (lower "Apex   Limited   Group") = 6
     /\ In "Suspicious Company Name Pattern" (flag_types flags))
  /\ (exists score classification flags self',
        analyze 4300 "Alpha Beta Gamma Delta Limited" "Software Engineer" plain_description
          "hr@alpha.com" (Some "https://alpha.com") None __init__
        = Ok (score, classification, flags, self')
        /\ contains "limited" (lower "Alpha Beta Gamma Delta Limited") = true
        /\ split " " "Alpha Beta Gamma Delta Limited"
           = ["Alpha"; "Beta"; "Gamma"; "Delta"; "Limited"]
        /\ split_ws "Alpha Beta Gamma Delta Limited"
           = ["Alpha"; "Beta"; "Gamma"; "Delta"; "Limited"]
        /\ count " " (lower "Alpha Beta Gamma Delta Limited") = 4
        /\ ~ In "Suspicious Company Name Pattern" (flag_types flags)).
Proof.
  split.
  - eexists _, _, _, _. split; [vm_compute; reflexivity|].
    repeat (split; [reflexivity|]). simpl. tauto.
  - eexists _, _, _, _. split; [vm_compute; reflexivity|].
    repeat (split; [reflexivity|]). simpl. tauto.
Qed.

(** The test of the rule as the code makes it: the flag Suspicious Company
    Name Pattern is in what [analyze] returns exactly when the lower-cased
    company name contains one of private, limited, corporation,
    international and [count(' ')] of it is more than 4; the flag has
    severity low and impact 3. *)
Theorem analyze_company_name_pattern (lim : nat) (c j d e : string) (w s : option string)
    (self self' : Engine) (score : Z) (classification : string) (flags : list Flag) :
  analyze lim c j d e w s self = Ok (score, classification, flags, self') ->
  (In "Suspicious Company Name Pattern" (flag_types flags)
   <-> any_in ["private"; "limited"; "corporation"; "international"] (lower c) = true
       /\ 4 < count " " (lower c))
  /\ (forall f, In f flags -> type f = "Suspicious Company Name Pattern" -> severity f = "low")
  /\ score_impact_of "Suspicious Company Name Pattern" = 3
  /\ score = Z.min (total_impact flags) 100.
Proof.
  intros H. apply analyze_returns in H as (-> & -> & _ & _).
  pose proof (findings_accounted lim c j d e w s) as [Hs F].
  split; [|split; [|split; [reflexivity | rewrite Hs; reflexivity]]].
  - rewrite company_flag_source, company_legitimacy_types.
    destruct (any_in _ (lower c)); simpl.
    + destruct (Z.gtb_spec (count " " (lower c)) 4); simpl; split.
      * intros _. split; [reflexivity | lia].
      * intros _. left; reflexivity.
      * intros [].
      * intros [_ Hc]. lia.
    + split; [intros [] | intros [Hc _]; discriminate Hc].
  - intros f Hf Ht. rewrite Forall_forall in F. specialize (F f Hf).
    rewrite Ht in F. simpl in F.
    repeat match goal with
           | H : _ \/ _ |- _ => destruct H as [H|H]
           | H : False |- _ => destruct H
           end;
      congruence.
Qed.

Lemma analyze_company_name_pattern_witness :
  exists flags self',
    analyze 4300 "Alpha Beta Gamma Delta Epsilon Limited" "Software Engineer" plain_description
      "hr@alpha.com" (Some "https://alpha.com") None __init__
    = Ok (3, "Legitimate", flags, self')
    /\ count " " (lower "Alpha Beta Gamma Delta Epsilon Limited") = 5
    /\ (In "Suspicious Company Name Pattern" (flag_types flags)
        <-> any_in ["private"; "limited"; "corporation"; "international"]
              (lower "Alpha Beta Gamma Delta Epsilon Limited") = true
            /\ 4 < count " " (lower "Alpha Beta Gamma Delta Epsilon Limited")).
Proof.
  eexists _, _. split; [vm_compute; reflexivity|]. split; [reflexivity|].
  eapply (analyze_company_name_pattern 4300 "Alpha Beta Gamma Delta Epsilon Limited"
            "Software Engineer" plain_description "hr@alpha.com" (Some "https://alpha.com")
            None __init__).
  vm_compute; reflexivity.
Defined.

(* ================================================================== *)
(** ** Adding text to the description                                 *)
(* ================================================================== *)

Lemma covers_around (pre d post : string) :
  covers (lower d) (lower (pre ++ d ++ post)).
Proof.
  intros k H. rewrite !lower_app. apply contains_around. exact H.
Qed.

Lemma any_in_mono (keywords : list string) (d d' : string) :
  covers d d' -> any_in keywords d = true -> any_in keywords d' = true.
Proof.
  intros Hc. unfold any_in. rewrite !existsb_exists.
  intros [k [Hk H]]. exists k. split; [exact Hk | apply Hc, H].
Qed.

Lemma count_in_nonneg (keywords : list string) (d : string) : 0 <= count_in keywords d.
Proof.
  unfold count_in, sum. induction keywords as [|k l IH]; cbn [filter map fold_right]; [lia|].
  destruct (contains k d); cbn [filter map fold_right]; lia.
Qed.

Lemma count_in_mono (keywords : list string) (d d' : string) :
  covers d d' -> count_in keywords d <= count_in keywords d'.
Proof.
  intros Hc. unfold count_in, sum.
  induction keywords as [|k l IH]; cbn [filter map fold_right]; [lia|].
  destruct (contains k d) eqn:E.
  - rewrite (Hc k E). cbn [filter map fold_right]. lia.
  - pose proof (count_in_nonneg l d') as Hn. unfold count_in, sum in Hn.
    destruct (contains k d'); cbn [filter map fold_right]; lia.
Qed.

Lemma impact_if_mono (b b' : bool) (t : string) :
  (b = true -> b' = true) ->
  impact_sum (if b then [t] else []) <= impact_sum (if b' then [t] else []).
Proof.
  intros H. pose proof (score_impact_of_nonneg t) as Ht.
  destruct b, b'; unfold impact_sum, sum; cbn [map fold_right]; try lia.
  all: discriminate (H eq_refl).
Qed.

Lemma suspicious_keywords_mono (d d' : string) :
  covers d d' ->
  impact_sum (types_out (_check_suspicious_keywords d))
  <= impact_sum (types_out (_check_suspicious_keywords d')).
Proof.
  intros Hc. rewrite !suspicious_keywords_types, !impact_sum_app.
  repeat apply Z.add_le_mono; apply impact_if_mono; apply any_in_mono; exact Hc.
Qed.

Lemma urgency_language_mono (d d' : string) :
  covers d d' ->
  impact_sum (types_out (_check_urgency_language d))
  <= impact_sum (types_out (_check_urgency_language d')).
Proof.
  intros Hc. rewrite !urgency_language_types. apply impact_if_mono.
  pose proof (count_in_mono (keywords_of "urgency") d d' Hc).
  rewrite !Z.geb_le. lia.
Qed.

Lemma copy_paste_content_mono (d d' : string) :
  covers d d' ->
  impact_sum (types_out (_check_copy_paste_content d))
  <= impact_sum (types_out (_check_copy_paste_content d')).
Proof.
  intros Hc. rewrite !copy_paste_content_types. apply impact_if_mono.
  pose proof (count_in_mono (keywords_of "copy_paste") d d' Hc).
  rewrite !Z.gtb_lt. lia.
Qed.

Lemma unrealistic_benefits_mono (d d' : string) :
  covers d d' ->
  impact_sum (types_out (_check_unrealistic_benefits d))
  <= impact_sum (types_out (_check_unrealistic_benefits d')).
Proof.
  intros Hc. rewrite !unrealistic_benefits_types. apply impact_if_mono.
  apply any_in_mono. exact Hc.
Qed.

Lemma description_quality_mono (d d' : string) :
  covers (lower d) (lower d') ->
  ((len (strip d) <? 100) = true -> (len (strip d') <? 100) = true) ->
  impact_sum (types_out (_check_description_quality d))
  <= impact_sum (types_out (_check_description_quality d')).
Proof.
  intros Hc Hl. rewrite !description_quality_types, !impact_sum_app.
  apply Z.add_le_mono; apply impact_if_mono; [exact Hl|].
  pose proof (count_in_mono ["recieve"; "occured"; "sucessful"; "applicaton"; "seperete"]
                (lower d) (lower d') Hc).
  rewrite !Z.geb_le. lia.
Qed.

(** C5, as the specification words it, fails: one more urgency keyword
    takes a description of 95 characters to 100, the flag Poor Job
    Description Quality (impact 6) is lost and nothing is gained. *)
Lemma more_keywords_lower_score :
  exists flags self1 flags' self2,
    analyze 4300 "Alpha" "Software Engineer" short_description "hr@alpha.com"
      (Some "https://alpha.com") None __init__
    = Ok (6, "Legitimate", flags, self1)
    /\ analyze 4300 "Alpha" "Software Engineer" (short_description ++ " asap")%string
         "hr@alpha.com" (Some "https://alpha.com") None __init__
       = Ok (0, "Legitimate", flags', self2)
    /\ len (strip short_description) = 95
    /\ len (strip (short_description ++ " asap")) = 100
    /\ In "asap" (keywords_of "urgency")
    /\ contains "asap" (lower short_description) = false
    /\ contains "asap" (lower (short_description ++ " asap")) = true
    /\ flag_types flags = ["Poor Job Description Quality"]
    /\ flag_types flags' = [].
Proof.
  eexists _, _, _, _.
  split; [vm_compute; reflexivity|]. split; [vm_compute; reflexivity|].
  split; [reflexivity|]. split; [reflexivity|].
  split; [simpl; tauto|]. repeat split; reflexivity.
Qed.

(** The same loss with a keyword of a category whose flag is already there. *)
Example second_payment_keyword_lowers_score :
  exists flags self1 flags' self2,
    analyze 4300 "Alpha" "Software Engineer" ("fee " ++ short_description)%string "hr@alpha.com"
      (Some "https://alpha.com") None __init__
    = Ok (31, "Suspicious", flags, self1)
    /\ analyze 4300 "Alpha" "Software Engineer"
         ("fee " ++ short_description ++ " payment")%string
         "hr@alpha.com" (Some "https://alpha.com") None __init__
       = Ok (25, "Legitimate", flags', self2).
Proof. eexists _, _, _, _. split; vm_compute; reflexivity. Qed.

(** C5, amended: text added before and after the description never takes
    the score down, as long as it does not take the flag Poor Job
    Description Quality away (a description whose trimmed length is under
    100 stays under 100): [analyze] returns on the longer description as
    it does on the shorter, with a score at least as high. *)
Theorem analyze_more_keywords_monotone (lim : nat) (c j d pre post e : string)
    (w s : option string) (self self' : Engine) (score : Z) (classification : string)
    (flags : list Flag) :
  ((len (strip d) <? 100) = true -> (len (strip (pre ++ d ++ post)%string) <? 100) = true) ->
  analyze lim c j d e w s self = Ok (score, classification, flags, self') ->
  exists score' classification' flags' self'',
    analyze lim c j (pre ++ d ++ post)%string e w s self
    = Ok (score', classification', flags', self'')
    /\ score <= score'.
Proof.
  intros Hl H.
  pose proof (covers_around pre d post) as Hc.
  assert (Hle : risk_score (findings lim c j d e w s)
                <= risk_score (findings lim c j (pre ++ d ++ post)%string e w s)).
  { rewrite (findings_score lim c j d), (findings_score lim c j (pre ++ d ++ post)%string).
    rewrite (findings_types lim c j d), (findings_types lim c j (pre ++ d ++ post)%string).
    rewrite !impact_sum_app.
    apply Z.add_le_mono; [apply Z.le_refl|].
    apply Z.add_le_mono; [apply Z.le_refl|].
    apply Z.add_le_mono; [apply suspicious_keywords_mono, Hc|].
    apply Z.add_le_mono; [apply urgency_language_mono, Hc|].
    apply Z.add_le_mono; [apply copy_paste_content_mono, Hc|].
    apply Z.add_le_mono; [apply unrealistic_benefits_mono, Hc|].
    apply Z.add_le_mono; [apply Z.le_refl|].
    apply Z.add_le_mono; [|apply Z.le_refl].
    apply description_quality_mono; assumption. }
  rewrite analyze_run in H. rewrite analyze_run.
  destruct (index (split "@" e) 1); [|discriminate].
  destruct (index (split_ws (lower c)) 0); [|discriminate].
  unfold report in H. injection H as <- _ _ _.
  unfold report. eexists _, _, _, _. split; [reflexivity|].
  apply Z.min_le_compat_r. exact Hle.
Qed.

Lemma analyze_more_keywords_monotone_witness :
  ((len (strip "Join our team.") <? 100) = true ->
   (len (strip ("Urgent: " ++ "Join our team." ++ " The job is guaranteed, apply now.")%string)
    <? 100) = true)
  /\ exists score' classification' flags' self'',
       analyze 4300 "Acme" "Software Engineer"
         ("Urgent: " ++ "Join our team." ++ " The job is guaranteed, apply now.")%string
         "hr@acme.com" (Some "https://acme.com") None __init__
       = Ok (score', classification', flags', self'')
       /\ 6 <= score'.
Proof.
  split; [intros _; reflexivity|].
  eapply (analyze_more_keywords_monotone 4300 "Acme" "Software Engineer" "Join our team."
            "Urgent: " " The job is guaranteed, apply now." "hr@acme.com"
            (Some "https://acme.com") None __init__);
    [intros _; reflexivity | vm_compute; reflexivity].
Defined.

(** On that posting the score goes from 6 to 34. *)
Example more_keywords_raise_score :
  exists flags self',
    analyze 4300 "Acme" "Software Engineer"
      ("Urgent: " ++ "Join our team." ++ " The job is guaranteed, apply now.")%string
      "hr@acme.com" (Some "https://acme.com") None __init__
    = Ok (34, "Suspicious", flags, self')
    /\ flag_types flags
       = ["Unrealistic Guarantees"; "Excessive Urgency"; "Poor Job Description Quality"].
Proof. eexists _, _. split; [vm_compute; reflexivity | reflexivity]. Qed.

Lemma analyze_blank_company_input (lim : nat) (c j d e : string) (w s : option string)
    (self : Engine) :
  forallb isspace (list_ascii_of_string c) = true ->
  contains "@" e = true ->
  analyze lim c j d e w s self = Raise IndexError.
Proof.
  intros Hc He. rewrite analyze_run.
  destruct (split_with_sep "@" e He) as [a [b [r ->]]].
  rewrite (split_ws_lower_blank c Hc). reflexivity.
Qed.

(* ================================================================== *)
(** ** The engine object across calls, and when a call fails          *)
(* ================================================================== *)

(** After a call that returns, the engine object holds the flags and the
    score just returned, and the next call, on any posting, does what it
    would do on any other engine: nothing is carried from call to call. *)
Theorem analyze_leaves_no_trace (lim : nat) (c j d e : string) (w s : option string)
    (self self' : Engine) (score : Z) (classification : string) (flags : list Flag) :
  analyze lim c j d e w s self = Ok (score, classification, flags, self') ->
  detected_flags self' = flags
  /\ risk_score self' = score
  /\ analyze lim c j d e w s self' = Ok (score, classification, flags, self')
  /\ (forall lim2 c2 j2 d2 e2 w2 s2,
        analyze lim2 c2 j2 d2 e2 w2 s2 self' = analyze lim2 c2 j2 d2 e2 w2 s2 self).
Proof.
  intros H. pose proof (analyze_returns _ _ _ _ _ _ _ _ _ _ _ _ H) as (_ & _ & _ & ->).
  split; [reflexivity|]. split; [reflexivity|]. split.
  - rewrite <- H. rewrite !analyze_run. reflexivity.
  - intros. rewrite !analyze_run. reflexivity.
Qed.

Lemma analyze_leaves_no_trace_witness :
  exists flags self',
    analyze 4300 "Acme" "Software Engineer" scam_description "hr@gmail.com" None None
      (mkEngine [mkFlag "Payment Request" [] "critical"] 99)
    = Ok (70, "Fake", flags, self')
    /\ risk_score self' = 70.
Proof.
  eexists _, _. split; [vm_compute; reflexivity|].
  eapply (analyze_leaves_no_trace 4300 "Acme" "Software Engineer" scam_description
            "hr@gmail.com" None None (mkEngine [mkFlag "Payment Request" [] "critical"] 99)).
  vm_compute; reflexivity.
Defined.

Lemma runs_nil_iff (p : ascii -> bool) (s : string) :
  runs p s = [] <-> forallb (fun c => negb (p c)) (list_ascii_of_string s) = true.
Proof.
  split; [|apply runs_none].
  induction s as [|c s IH]; simpl; [reflexivity|].
  destruct (p c) eqn:E; simpl; [|exact IH].
  destruct s as [|c' s']; [discriminate|].
  destruct (p c'); [|discriminate]. destruct (runs p (String c' s')); discriminate.
Qed.

Lemma split_ws_lower_nil_iff (c : string) :
  split_ws (lower c) = [] <-> forallb isspace (list_ascii_of_string c) = true.
Proof.
  unfold split_ws. rewrite runs_nil_iff.
  assert (E : forallb (fun a => negb (negb (isspace a))) (list_ascii_of_string (lower c))
              = forallb isspace (list_ascii_of_string c)).
  { induction c as [|a t IH]; simpl; [reflexivity|].
    rewrite isspace_lower_char, negb_involutive, IH. reflexivity. }
  rewrite E. reflexivity.
Qed.

(** [analyze] fails exactly on a posting whose email has no ['@'] or whose
    company name has no character other than whitespace, and then the
    exception is [IndexError]: no [KeyError] or [ValueError] ever leaves it,
    whatever the description, title, website and salary are. *)
Theorem analyze_raises_iff (lim : nat) (c j d e : string) (w s : option string)
    (self : Engine) :
  ((exists x, analyze lim c j d e w s self = Raise x)
   <-> contains "@" e = false \/ forallb isspace (list_ascii_of_string c) = true)
  /\ (forall x, analyze lim c j d e w s self = Raise x -> x = IndexError).
Proof.
  rewrite analyze_run. split; [split|].
  - intros [x H]. destruct (contains "@" e) eqn:He; [right | left; reflexivity].
    destruct (split_with_sep "@" e He) as [a [b [r E]]]. rewrite E in H.
    change (index (a :: b :: r) 1) with (Ok b) in H. cbv iota in H.
    apply split_ws_lower_nil_iff.
    destruct (split_ws (lower c)); [reflexivity | discriminate H].
  - intros [He | Hc].
    + exists IndexError. rewrite (split_no_sep "@" e He). reflexivity.
    + apply split_ws_lower_nil_iff in Hc. rewrite Hc.
      exists IndexError. destruct (index (split "@" e) 1) as [b|x] eqn:E; [reflexivity|].
      apply index_raises in E. subst x. reflexivity.
  - intros x H.
    destruct (index (split "@" e) 1) as [b|y] eqn:E1.
    + destruct (index (split_ws (lower c)) 0) as [word|y] eqn:E2; [discriminate|].
      apply index_raises in E2. congruence.
    + apply index_raises in E1. congruence.
Qed.

(** [_classify_risk] caps the score at 100 and never raises it: a score
    below 0 stays as it is. Called again on the engine it leaves, it gives
    the same label and the same engine. *)
Theorem classify_risk_idempotent (st st' : Engine) (label : string) :
  _classify_risk st = Ok (label, st') ->
  _classify_risk st' = Ok (label, st')
  /\ risk_score st' = Z.min (risk_score st) 100
  /\ detected_flags st' = detected_flags st.
Proof.
  rewrite !classify_risk_run. intros H. injection H as <- <-. simpl.
  rewrite Z.min_l by lia. repeat split.
Qed.

Lemma classify_risk_idempotent_witness :
  _classify_risk (mkEngine [] (-5)) = Ok ("Legitimate", mkEngine [] (-5))
  /\ _classify_risk (mkEngine [] 144) = Ok ("Fake", mkEngine [] 100)
  /\ _classify_risk (mkEngine [] 100) = Ok ("Fake", mkEngine [] 100).
Proof.
  split; [reflexivity|]. split; [reflexivity|].
  apply (classify_risk_idempotent (mkEngine [] 144) (mkEngine [] 100) "Fake").
  reflexivity.
Defined.

(* ================================================================== *)
(** ** The flags returned: how many, in which order, worth how much   *)
(* ================================================================== *)

Lemma catalogue_impact (f : Flag) :
  In (type f, severity f) CATALOGUE -> 3 <= score_impact_of (type f) <= 25.
Proof.
  intros H. simpl in H.
  repeat match goal with
         | H : _ \/ _ |- _ => destruct H as [H|H]
         | H : False |- _ => destruct H
         end;
    injection H as H _; rewrite <- H; vm_compute; split; discriminate.
Qed.

Lemma total_impact_at_least (flags : list Flag) :
  Forall (fun f => In (type f, severity f) CATALOGUE) flags ->
  3 * Z.of_nat (List.length flags) <= total_impact flags.
Proof.
  unfold total_impact, sum.
  induction 1 as [|f l Hf _ IH]; cbn [List.length map fold_right]; [lia|].
  pose proof (catalogue_impact f Hf). lia.
Qed.

(** No flag means a score of 0 and the tier Legitimate, and only no flag
    does: with a flag returned the score is at least 3, the least impact. *)
Theorem analyze_no_flag_iff_zero (lim : nat) (c j d e : string) (w s : option string)
    (self self' : Engine) (score : Z) (classification : string) (flags : list Flag) :
  analyze lim c j d e w s self = Ok (score, classification, flags, self') ->
  (flags = [] <-> score = 0)
  /\ (flags = [] -> classification = "Legitimate")
  /\ (flags <> [] -> 3 <= score).
Proof.
  intros H. apply analyze_returns in H as (-> & -> & -> & _).
  pose proof (findings_accounted lim c j d e w s) as [Hs F].
  pose proof (total_impact_at_least _ F) as Hn. rewrite <- Hs in Hn.
  destruct (detected_flags (findings lim c j d e w s)) as [|f l] eqn:E.
  - unfold total_impact, sum in Hs. cbn [map fold_right] in Hs. rewrite Hs.
    repeat split; intros; try reflexivity. contradiction.
  - cbn [List.length] in Hn. rewrite Nat2Z.inj_succ in Hn.
    repeat split; intros; try discriminate; lia.
Qed.

Lemma analyze_no_flag_iff_zero_witness :
  exists self',
    analyze 4300 "Acme" "Software Engineer" plain_description "hr@acme.com"
      (Some "https://acme.com") (Some "12,00,000 per year") __init__
    = Ok (0, "Legitimate", [], self')
    /\ (@nil Flag = [] <-> 0 = 0).
Proof.
  eexists. split; [vm_compute; reflexivity|].
  eapply (analyze_no_flag_iff_zero 4300 "Acme" "Software Engineer" plain_description
            "hr@acme.com" (Some "https://acme.com") (Some "12,00,000 per year") __init__).
  vm_compute; reflexivity.
Defined.

Lemma Subseq_app (a b a' b' : list string) :
  Subseq a a' -> Subseq b b' -> Subseq (a ++ b) (a' ++ b').
Proof.
  intros Ha Hb. induction Ha; simpl; [exact Hb | |]; constructor; assumption.
Qed.

Lemma Subseq_In (l m : list string) (x : string) : Subseq l m -> In x l -> In x m.
Proof.
  induction 1; simpl; [tauto | auto |]. intros [->|Hx]; auto.
Qed.

Lemma Subseq_NoDup (l m : list string) : Subseq l m -> NoDup m -> NoDup l.
Proof.
  induction 1 as [|x l m H IH|x l m H IH]; intros Hm.
  - constructor.
  - inversion Hm; subst. auto.
  - inversion Hm; subst. constructor; [|auto].
    intros Hx. apply (Subseq_In _ _ _ H) in Hx. contradiction.
Qed.

Lemma Subseq_length (l m : list string) : Subseq l m -> (List.length l <= List.length m)%nat.
Proof. induction 1; simpl; lia. Qed.

Lemma Subseq_if (b : bool) (t : string) : Subseq (if b then [t] else []) [t].
Proof. destruct b; repeat first [apply Subseq_nil | apply Subseq_take | apply Subseq_skip]. Qed.

Lemma salary_types_subseq (lim : nat) (s : option string) (j : string) :
  Subseq (types_out (_check_salary_unrealistic lim s j)) salary_flag_types
  /\ (List.length (types_out (_check_salary_unrealistic lim s j)) <= 1)%nat
  /\ impact_sum (types_out (_check_salary_unrealistic lim s j)) <= 13.
Proof.
  destruct (salary_unrealistic_types_cases lim s j) as [E|[E|E]]; rewrite E;
    (split; [repeat first [apply Subseq_nil | apply Subseq_take | apply Subseq_skip]
            | split; [simpl; lia | vm_compute; discriminate]]).
Qed.

(** The types of the flags [analyze] returns, as a list cut out of the
    list of the thirteen types in the order of the rules: the flags come in
    rule order, no type comes twice, and at most twelve come. *)
Theorem analyze_flags_in_rule_order (lim : nat) (c j d e : string) (w s : option string)
    (self self' : Engine) (score : Z) (classification : string) (flags : list Flag) :
  analyze lim c j d e w s self = Ok (score, classification, flags, self') ->
  Subseq (flag_types flags) (map fst CATALOGUE)
  /\ NoDup (flag_types flags)
  /\ (List.length flags <= 12)%nat.
Proof.
  intros H. apply analyze_returns in H as (-> & _ & _ & _).
  assert (S : Subseq (flag_types (detected_flags (findings lim c j d e w s)))
                     (map fst CATALOGUE)).
  { rewrite findings_types.
    rewrite email_domain_types, missing_website_types, suspicious_keywords_types,
      urgency_language_types, copy_paste_content_types, unrealistic_benefits_types,
      description_quality_types, company_legitimacy_types.
    change (map fst CATALOGUE)
      with (["Free Email Domain"] ++ ["Missing Company Website"]
            ++ (["Payment Request"] ++ ["Unrealistic Guarantees"]
                ++ ["Unrealistic Work-from-Home Offer"])
            ++ ["Excessive Urgency"] ++ ["Generic/Copy-Paste Content"]
            ++ ["Unrealistic Benefits"] ++ salary_flag_types
            ++ (["Poor Job Description Quality"] ++ ["Poor Grammar/Spelling"])
            ++ ["Suspicious Company Name Pattern"]).
    repeat apply Subseq_app; try apply Subseq_if; try apply salary_types_subseq.
    destruct (index (split "@" (lower e)) 1) as [dom|x]; [apply Subseq_if|].
    repeat first [apply Subseq_nil | apply Subseq_take | apply Subseq_skip]. }
  split; [exact S|]. split.
  - apply (Subseq_NoDup _ _ S).
    repeat (constructor; [simpl; intuition discriminate|]). constructor.
  - assert (L : List.length (flag_types (detected_flags (findings lim c j d e w s)))
                = List.length (detected_flags (findings lim c j d e w s)))
      by apply length_map.
    rewrite <- L, findings_types, !length_app.
    pose proof (salary_types_subseq lim s j) as (_ & H7 & _).
    pose proof (Subseq_length _ _ (Subseq_if
      (any_in ["private"; "limited"; "corporation"; "international"] (lower c)
       && (count " " (lower c) >? 4)) "Suspicious Company Name Pattern")) as H9.
    rewrite <- company_legitimacy_types in H9.
    rewrite email_domain_types, missing_website_types, suspicious_keywords_types,
      urgency_language_types, copy_paste_content_types, unrealistic_benefits_types,
      description_quality_types, !length_app.
    repeat match goal with
           | |- context [if ?b then _ else _] => destruct b
           | |- context [match ?x with Ok _ => _ | Raise _ => _ end] => destruct x
           end;
      cbn [List.length] in *; lia.
Qed.

Lemma analyze_flags_in_rule_order_witness :
  exists flags self',
    analyze 4300 "Alpha Beta Gamma Delta E Limited" "Junior Engineer"
      "URGENT asap Dear Applicant earn while you sleep easy money recieve occured guaranteed fee"
      "hr@YAHOO.com" (Some "") (Some "Rs. 9") __init__
    = Ok (100, "Fake", flags, self')
    /\ flag_types flags
       = ["Free Email Domain"; "Missing Company Website"; "Payment Request";
          "Unrealistic Guarantees"; "Unrealistic Work-from-Home Offer"; "Excessive Urgency";
          "Generic/Copy-Paste Content"; "Unrealistic Benefits"; "Unrealistic Salary (Too Low)";
          "Poor Job Description Quality"; "Poor Grammar/Spelling";
          "Suspicious Company Name Pattern"]
    /\ NoDup (flag_types flags).
Proof.
  eexists _, _. split; [vm_compute; reflexivity|]. split; [reflexivity|].
  eapply (analyze_flags_in_rule_order 4300 "Alpha Beta Gamma Delta E Limited" "Junior Engineer"
            "URGENT asap Dear Applicant earn while you sleep easy money recieve occured guaranteed fee"
            "hr@YAHOO.com" (Some "") (Some "Rs. 9") __init__).
  vm_compute; reflexivity.
Defined.

Lemma impact_if_bound (b : bool) (t : string) :
  impact_sum (if b then [t] else []) <= score_impact_of t.
Proof.
  pose proof (score_impact_of_nonneg t).
  destruct b; unfold impact_sum, sum; cbn [map fold_right]; lia.
Qed.

(** The impacts of the flags returned add up to 144 at most, so the cap
    at 100 is what bounds the score: the score is the sum itself up to 100,
    and 100 for the sums from 101 to 144. *)
Theorem analyze_raw_sum_at_most_144 (lim : nat) (c j d e : string) (w s : option string)
    (self self' : Engine) (score : Z) (classification : string) (flags : list Flag) :
  analyze lim c j d e w s self = Ok (score, classification, flags, self') ->
  total_impact flags <= 144
  /\ (total_impact flags <= 100 -> score = total_impact flags)
  /\ (100 < total_impact flags -> score = 100).
Proof.
  intros H. apply analyze_returns in H as (-> & -> & _ & _).
  rewrite findings_score, total_impact_types.
  split; [|split; intros; lia].
  rewrite findings_types, !impact_sum_app.
  pose proof (salary_types_subseq lim s j) as (_ & _ & H7).
  rewrite email_domain_types, missing_website_types, suspicious_keywords_types,
    urgency_language_types, copy_paste_content_types, unrealistic_benefits_types,
    description_quality_types, company_legitimacy_types, !impact_sum_app.
  assert (H1 : impact_sum
                 match index (split "@" (lower e)) 1 with
                 | Ok dom => if set_in (lower dom) FREE_EMAIL_DOMAINS
                             then ["Free Email Domain"] else []
                 | Raise _ => []
                 end <= 15).
  { destruct (index (split "@" (lower e)) 1); [apply impact_if_bound|].
    vm_compute; discriminate. }
  repeat match goal with
         | |- context [impact_sum (if ?b then [?t] else [])] =>
             pose proof (impact_if_bound b t);
             generalize dependent (impact_sum (if b then [t] else []))
         end.
  change (score_impact_of "Missing Company Website") with 12.
  change (score_impact_of "Payment Request") with 25.
  change (score_impact_of "Unrealistic Guarantees") with 18.
  change (score_impact_of "Unrealistic Work-from-Home Offer") with 16.
  change (score_impact_of "Excessive Urgency") with 10.
  change (score_impact_of "Generic/Copy-Paste Content") with 8.
  change (score_impact_of "Unrealistic Benefits") with 14.
  change (score_impact_of "Poor Job Description Quality") with 6.
  change (score_impact_of "Poor Grammar/Spelling") with 4.
  change (score_impact_of "Suspicious Company Name Pattern") with 3.
  intros. lia.
Qed.

Lemma analyze_raw_sum_at_most_144_witness :
  exists flags self',
    analyze 4300 "Alpha Beta Gamma Delta E Limited" "Junior Engineer"
      "URGENT asap Dear Applicant earn while you sleep easy money recieve occured guaranteed fee"
      "hr@YAHOO.com" None (Some "Rs. 99,99,99,999") __init__
    = Ok (100, "Fake", flags, self')
    /\ total_impact flags = 144
    /\ total_impact flags <= 144.
Proof.
  eexists _, _. split; [vm_compute; reflexivity|]. split; [reflexivity|].
  eapply (analyze_raw_sum_at_most_144 4300 "Alpha Beta Gamma Delta E Limited" "Junior Engineer"
            "URGENT asap Dear Applicant earn while you sleep easy money recieve occured guaranteed fee"
            "hr@YAHOO.com" None (Some "Rs. 99,99,99,999") __init__).
  vm_compute; reflexivity.
Defined.

(* ================================================================== *)
(** ** Lower-casing twice                                             *)
(* ================================================================== *)

Lemma lower_char_idem (c : ascii) : lower_char (lower_char c) = lower_char c.
Proof. destruct c as [[] [] [] [] [] [] [] []]; reflexivity. Qed.

Lemma lower_idem (s : string) : lower (lower s) = lower s.
Proof.
  induction s as [|c s IH]; simpl; [reflexivity|].
  rewrite lower_char_idem, IH. reflexivity.
Qed.

(* ================================================================== *)
(** ** What the keyword scan records                                  *)
(* ================================================================== *)

Lemma extend_found_app (o : option (list string)) (a b : list string) :
  extend_found (extend_found o a) b = extend_found o (a ++ b).
Proof.
  destruct a as [|x a]; [reflexivity|].
  destruct b as [|y b]; simpl.
  - rewrite app_nil_r. destruct o; reflexivity.
  - destruct o; simpl; [rewrite <- app_assoc|]; reflexivity.
Qed.

Lemma record_keyword_get (cat kw c : string) (found : dict (list string)) :
  dict_get (record_keyword cat kw found) c
  = if String.eqb cat c then extend_found (dict_get found c) [kw] else dict_get found c.
Proof.
  unfold record_keyword.
  destruct (dict_get found cat) as [l|] eqn:E; rewrite dict_get_set;
    destruct (String.eqb_spec cat c) as [<-|_]; try reflexivity; rewrite E; reflexivity.
Qed.

Lemma scan_category_get (p : string -> bool) (cat c : string) (kws : list string)
    (found : dict (list string)) :
  dict_get (fold_left (fun found_keywords keyword =>
                         if p keyword then record_keyword cat keyword found_keywords
                         else found_keywords) kws found) c
  = if String.eqb cat c then extend_found (dict_get found c) (filter p kws)
    else dict_get found c.
Proof.
  revert found; induction kws as [|kw kws IH]; intros found; cbn [fold_left filter].
  - destruct (String.eqb cat c); [destruct (dict_get found c)|]; reflexivity.
  - rewrite IH. destruct (p kw); [|reflexivity].
    rewrite record_keyword_get. destruct (String.eqb cat c); [|reflexivity].
    rewrite extend_found_app. reflexivity.
Qed.

Lemma dict_get_not_key {V : Type} (d : dict V) (k : string) :
  ~ In k (map fst d) -> dict_get d k = None.
Proof.
  induction d as [|[k' v] r IH]; simpl; [reflexivity|].
  intros H. destruct (String.eqb_spec k' k) as [->|_]; [tauto|]. apply IH. tauto.
Qed.

Lemma scan_table_get (p : string -> bool) (c : string) (table found : dict (list string)) :
  NoDup (map fst table) ->
  dict_get (fold_left
              (fun found_keywords (item : string * list string) =>
                 let (category, keywords) := item in
                 fold_left (fun found_keywords keyword =>
                              if p keyword then record_keyword category keyword found_keywords
                              else found_keywords) keywords found_keywords)
              table found) c
  = match dict_get table c with
    | Some kws => extend_found (dict_get found c) (filter p kws)
    | None => dict_get found c
    end.
Proof.
  revert found; induction table as [|[cat kws] table IH]; intros found Hnd;
    cbn [fold_left dict_get]; [reflexivity|].
  cbn [map fst] in Hnd. inversion Hnd as [|? ? Hcat Hrest]; subst.
  rewrite (IH _ Hrest), scan_category_get.
  destruct (String.eqb_spec cat c) as [->|_]; [|reflexivity].
  rewrite (dict_get_not_key table c Hcat). reflexivity.
Qed.

(** The two loops of [_check_suspicious_keywords] leave in
    [found_keywords], under each category, the keywords of the category
    that occur in the description, in the order of the table, and no entry
    for a category none of whose keywords occurs, or for any other key. *)
Theorem scan_keywords_records_matches (d c : string) :
  dict_get (scan_keywords d) c
  = match filter (fun keyword => contains keyword d) (keywords_of c) with
    | [] => None
    | matched => Some matched
    end.
Proof.
  unfold scan_keywords, keywords_of.
  rewrite scan_table_get.
  - destruct (dict_get SUSPICIOUS_KEYWORDS c) as [kws|]; [|reflexivity].
    cbn [dict_get]. destruct (filter _ kws); reflexivity.
  - repeat (constructor; [simpl; intuition discriminate|]). constructor.
Qed.

(** The keywords a description matches, as the Payment Request flag lists
    them. *)
Example scan_keywords_ex :
  dict_get (scan_keywords "a processing fee and an advance payment") "money_request"
  = Some ["payment"; "fee"; "processing"; "advance payment"]
  /\ dict_get (scan_keywords "a processing fee and an advance payment") "urgency" = None.
Proof. split; reflexivity. Qed.

(* ================================================================== *)
(** ** The flag types, rule by rule                                   *)
(* ================================================================== *)

(** The types of the flags [analyze] returns are read off the posting
    field by field: each rule gives its flag on its own test, whatever the
    other rules find, and the domain tested is the piece of the email
    between its first ['@'] and the next one. *)
Theorem analyze_flag_table (lim : nat) (c j d e : string) (w s : option string)
    (self self' : Engine) (score : Z) (classification : string) (flags : list Flag) :
  analyze lim c j d e w s self = Ok (score, classification, flags, self') ->
  exists domain,
    index (split "@" e) 1 = Ok domain
    /\ flag_types flags
       = (if set_in (lower domain) FREE_EMAIL_DOMAINS then ["Free Email Domain"] else [])
         ++ (if py_not w then ["Missing Company Website"] else [])
         ++ ((if any_in (keywords_of "money_request") (lower d)
              then ["Payment Request"] else [])
             ++ (if any_in (keywords_of "guaranteed") (lower d)
                 then ["Unrealistic Guarantees"] else [])
             ++ (if any_in (keywords_of "work_from_home_too_good") (lower d)
                 then ["Unrealistic Work-from-Home Offer"] else []))
         ++ (if count_in (keywords_of "urgency") (lower d) >=? 2
             then ["Excessive Urgency"] else [])
         ++ (if count_in (keywords_of "copy_paste") (lower d) >? 0
             then ["Generic/Copy-Paste Content"] else [])
         ++ (if any_in (keywords_of "unrealistic_benefits") (lower d)
             then ["Unrealistic Benefits"] else [])
         ++ match s with
            | Some (String _ _ as salary) =>
                match salary_value lim salary with
                | Ok v =>
                    if v >? threshold_of j "max" then ["Unrealistic Salary (Too High)"]
                    else if v <? threshold_of j "min" then ["Unrealistic Salary (Too Low)"]
                    else []
                | Raise _ => []
                end
            | _ => []
            end
         ++ ((if len (strip d) <? 100 then ["Poor Job Description Quality"] else [])
             ++ (if count_in ["recieve"; "occured"; "sucessful"; "applicaton"; "seperete"]
                      (lower d) >=? 2
                 then ["Poor Grammar/Spelling"] else []))
         ++ (if any_in ["private"; "limited"; "corporation"; "international"] (lower c)
                && (count " " (lower c) >? 4)
             then ["Suspicious Company Name Pattern"] else []).
Proof.
  intros H. pose proof (analyze_returns _ _ _ _ _ _ _ _ _ _ _ _ H) as (-> & _ & _ & _).
  rewrite analyze_run in H.
  destruct (index (split "@" e) 1) as [domain|x] eqn:E; [|discriminate].
  exists domain. split; [reflexivity|].
  rewrite findings_types, email_domain_types, index_split_at_lower, E.
  cbn [rbind]. rewrite lower_idem.
  rewrite missing_website_types, suspicious_keywords_types, urgency_language_types,
    copy_paste_content_types, unrealistic_benefits_types, salary_unrealistic_types,
    description_quality_types, company_legitimacy_types.
  reflexivity.
Qed.

Lemma analyze_flag_table_witness :
  exists flags self',
    analyze 4300 "Acme" "Software Engineer" plain_description "hr@Gmail.com@acme.com"
      (Some "https://acme.com") None __init__
    = Ok (15, "Legitimate", flags, self')
    /\ index (split "@" "hr@Gmail.com@acme.com") 1 = Ok "Gmail.com"
    /\ flag_types flags = ["Free Email Domain"].
Proof.
  eexists _, _. split; [vm_compute; reflexivity|]. split; [reflexivity|].
  edestruct (analyze_flag_table 4300 "Acme" "Software Engineer" plain_description
               "hr@Gmail.com@acme.com" (Some "https://acme.com") None __init__)
    as (domain & Hd & Ht); [vm_compute; reflexivity|].
  rewrite Ht. vm_compute in Hd. injection Hd as <-. reflexivity.
Defined.

(* ================================================================== *)
(** ** The request handler                                            *)
(* ================================================================== *)

(** The explanation the handler attaches to a result of [analyze] is
    never the fall-back text for an unknown label: it is the text of the
    tier of the score. *)
Theorem explanation_of_result (lim : nat) (c j d e : string) (w s : option string)
    (self self' : Engine) (score : Z) (classification : string) (flags : list Flag) :
  analyze lim c j d e w s self = Ok (score, classification, flags, self') ->
  _get_explanation score classification
  <> "Unable to classify this offer. Use your judgment."
  /\ (score < 30 ->
      _get_explanation score classification = _get_explanation 0 "Legitimate")
  /\ (30 <= score < 70 ->
      _get_explanation score classification = _get_explanation 0 "Suspicious")
  /\ (70 <= score ->
      _get_explanation score classification = _get_explanation 0 "Fake").
Proof.
  intros H. apply analyze_returns in H as (_ & _ & -> & _).
  unfold tier.
  destruct (Z.ltb_spec score 30); [|destruct (Z.ltb_spec score 70)];
    (split; [discriminate|]); repeat split; intros; try lia; reflexivity.
Qed.

Lemma explanation_of_result_witness :
  exists flags self',
    analyze 4300 "Acme" "Software Engineer" scam_description "hr@gmail.com" None None __init__
    = Ok (70, "Fake", flags, self')
    /\ _get_explanation 70 "Fake" <> "Unable to classify this offer. Use your judgment.".
Proof.
  eexists _, _. split; [vm_compute; reflexivity|].
  eapply (explanation_of_result 4300 "Acme" "Software Engineer" scam_description
            "hr@gmail.com" None None __init__).
  vm_compute; reflexivity.
Defined.

Lemma lstrip_cases (s : string) :
  lstrip s = EmptyString \/ exists a t, lstrip s = String a t /\ isspace a = false.
Proof.
  induction s as [|c s IH]; simpl; [left; reflexivity|].
  destruct (isspace c) eqn:E; [exact IH|]. right. exists c, s. split; [reflexivity | exact E].
Qed.

Lemma rstrip_head (a : ascii) (t : string) :
  isspace a = false -> exists t', rstrip (String a t) = String a t'.
Proof.
  intros E. simpl. destruct (rstrip t) as [|b r]; rewrite ?E; eexists; reflexivity.
Qed.

Lemma strip_cases (s : string) :
  strip s = EmptyString \/ exists a t, strip s = String a t /\ isspace a = false.
Proof.
  unfold strip. destruct (lstrip_cases s) as [-> | (a & t & -> & E)]; [left; reflexivity|].
  right. destruct (rstrip_head a t E) as [t' ->]. exists a, t'. split; [reflexivity | exact E].
Qed.

Lemma lstrip_nil_iff (s : string) :
  lstrip s = EmptyString <-> forallb isspace (list_ascii_of_string s) = true.
Proof.
  induction s as [|c s IH]; simpl; [tauto|].
  destruct (isspace c); simpl; [exact IH|]. split; discriminate.
Qed.

Lemma strip_nil_iff (s : string) :
  strip s = EmptyString <-> forallb isspace (list_ascii_of_string s) = true.
Proof.
  rewrite <- lstrip_nil_iff. unfold strip. split.
  - intros H. destruct (lstrip_cases s) as [E | (a & t & E & Ha)]; [exact E|].
    rewrite E in H. destruct (rstrip_head a t Ha) as [t' E']. congruence.
  - intros ->. reflexivity.
Qed.

Lemma first_missing_spec (fields : list string) (data : json_body) :
  match first_missing fields data with
  | Some field =>
      In field fields /\ py_not (body_get data field None) = true
  | None => forall field, In field fields -> py_not (body_get data field None) = false
  end.
Proof.
  induction fields as [|f r IH]; simpl; [tauto|].
  destruct (negb (dict_in f data) || py_not (body_get data f None)) eqn:E.
  - split; [left; reflexivity|].
    apply orb_true_iff in E as [E|E]; [|exact E].
    unfold dict_in, body_get in *. destruct (dict_get data f); [discriminate | reflexivity].
  - apply orb_false_iff in E as [_ E].
    destruct (first_missing r data) as [field|].
    + destruct IH as [Hin Hn]. split; [right|]; assumption.
    + intros field [<-|Hin]; [exact E | apply IH, Hin].
Qed.

(** The handler answers "Missing Required Field" exactly when one of
    company_name, job_title, description and email is absent from the body,
    [null] or the empty text; a value of whitespace only passes. Whatever it
    answers by itself has status 400. *)
Theorem request_missing_field_iff (data : json_body) :
  ((exists message,
      analyze_job_request data = Respond 400 "Missing Required Field" message)
   <-> exists field,
         In field ["company_name"; "job_title"; "description"; "email"]
         /\ py_not (body_get data field None) = true)
  /\ (forall status error message,
        analyze_job_request data = Respond status error message -> status = 400).
Proof.
  unfold analyze_job_request. cbv zeta.
  pose proof (first_missing_spec ["company_name"; "job_title"; "description"; "email"] data)
    as M.
  destruct (first_missing _ data) as [field|].
  - split; [split|].
    + intros _. exists field. exact M.
    + intros _. eexists. reflexivity.
    + intros ? ? ? H. injection H as <- _ _. reflexivity.
  - split; [split|].
    + intros [message H]. destruct (_ || _); discriminate H.
    + intros (field & Hin & Hn). rewrite (M field Hin) in Hn. discriminate.
    + intros ? ? ? H. destruct (_ || _); [|discriminate H].
      injection H as <- _ _. reflexivity.
Qed.

(** A body the handler passes on reaches the engine with an email that
    has its ['@'], so the engine fails on it in one case only: a company
    name of whitespace, which the handler lets through as the empty text.
    On every other body passed on, [analyze] returns. *)
Theorem request_engine_failure (lim : nat) (data : json_body) (c j d e : string)
    (w s : option string) (self : Engine) :
  analyze_job_request data = CallEngine c j d e w s ->
  contains "@" e = true
  /\ (c = EmptyString
      <-> forallb isspace
            (list_ascii_of_string (py_str (body_get data "company_name" (Some EmptyString))))
          = true)
  /\ (c = EmptyString -> analyze lim c j d e w s self = Raise IndexError)
  /\ (c <> EmptyString ->
      analyze lim c j d e w s self = Ok (report (findings lim c j d e w s))).
Proof.
  unfold analyze_job_request. cbv zeta.
  destruct (first_missing _ data); [discriminate|].
  destruct (negb (contains "@" _)) eqn:He; [discriminate|].
  destruct (negb (contains "." _)); [discriminate|].
  cbn [orb]. intros H. injection H as <- _ _ <- _ _.
  apply negb_false_iff in He.
  split; [exact He|]. split; [apply strip_nil_iff|]. split.
  - intros ->. apply analyze_blank_company_input; [reflexivity | exact He].
  - intros Hc. apply analyze_returns_on_valid_input; [exact He|].
    destruct (strip_cases (py_str (body_get data "company_name" (Some EmptyString))))
      as [E | (a & t & E & Ha)]; [contradiction|].
    rewrite E. unfold split_ws. cbn [lower runs]. rewrite isspace_lower_char, Ha.
    cbn [negb]. destruct (lower t) as [|b r]; [discriminate|].
    destruct (negb (isspace b)); [|discriminate].
    destruct (runs _ (String b r)); discriminate.
Qed.

Lemma request_engine_failure_witness :
  analyze_job_request
    [("company_name", Some "   "); ("job_title", Some "Software Engineer");
     ("description", Some plain_description); ("email", Some " HR@Acme.com ");
     ("website", None)]
  = CallEngine "" "Software Engineer" plain_description "hr@acme.com" None None
  /\ analyze 4300 "" "Software Engineer" plain_description "hr@acme.com" None None __init__
     = Raise IndexError.
Proof.
  split; [reflexivity|].
  eapply (request_engine_failure 4300
            [("company_name", Some "   "); ("job_title", Some "Software Engineer");
             ("description", Some plain_description); ("email", Some " HR@Acme.com ");
             ("website", None)]);
    reflexivity.
Defined.

Example request_rejected :
  analyze_job_request
    [("company_name", Some "Acme"); ("job_title", Some ""); ("email", Some "hr@acme.com")]
  = Respond 400 "Missing Required Field"
      ("Field " ++ dquote ++ "job_title" ++ dquote ++ " is required and cannot be empty")%string
  /\ analyze_job_request
       [("company_name", Some "Acme"); ("job_title", Some "Engineer");
        ("description", Some "Join us"); ("email", Some "hr@acme")]
     = Respond 400 "Invalid Email" "Please provide a valid email address".
Proof. split; reflexivity. Qed.

(** A website or a salary that is absent from the body, [null], empty or
    of whitespace only is no website and no salary for the engine: the
    handler passes [None] or the empty text, which the rules treat alike. *)
Theorem request_optional_fields (data : json_body) (c j d e : string)
    (w s : option string) :
  analyze_job_request data = CallEngine c j d e w s ->
  (py_not w = true
   <-> match body_get data "website" None with
       | None => True
       | Some raw => forallb isspace (list_ascii_of_string raw) = true
       end)
  /\ (py_not s = true
      <-> match body_get data "salary" None with
          | None => True
          | Some raw => forallb isspace (list_ascii_of_string raw) = true
          end)
  /\ _check_missing_website w c = _check_missing_website (if py_not w then None else w) c
  /\ (forall lim, _check_salary_unrealistic lim s j
                  = _check_salary_unrealistic lim (if py_not s then None else s) j).
Proof.
  assert (P : forall k : string,
             py_not (if py_not (body_get data k None) then None
                     else Some (strip (py_str (body_get data k (Some EmptyString))))) = true
             <-> match body_get data k None with
                 | None => True
                 | Some raw => forallb isspace (list_ascii_of_string raw) = true
                 end).
  { intros k. unfold body_get. destruct (dict_get data k) as [[raw|]|]; cbn [py_not py_str].
    - destruct raw as [|a t]; [tauto|].
      rewrite <- strip_nil_iff. destruct (strip (String a t)); simpl; split; congruence.
    - tauto.
    - tauto. }
  unfold analyze_job_request. cbv zeta.
  destruct (first_missing _ data); [discriminate|].
  destruct (_ || _); [discriminate|].
  intros H. injection H as _ _ _ _ <- <-.
  split; [apply P|]. split; [apply P|]. split.
  - destruct (if py_not (body_get data "website" None) then None else _) as [[|a t]|];
      reflexivity.
  - intros lim.
    destruct (if py_not (body_get data "salary" None) then None else _) as [[|a t]|];
      reflexivity.
Qed.

Lemma request_optional_fields_witness :
  analyze_job_request
    [("company_name", Some "Acme"); ("job_title", Some "Software Engineer");
     ("description", Some plain_description); ("email", Some "hr@acme.com");
     ("website", Some "   "); ("salary", None)]
  = CallEngine "Acme" "Software Engineer" plain_description "hr@acme.com" (Some "") None
  /\ (py_not (Some "") = true <-> forallb isspace (list_ascii_of_string "   ") = true)
  /\ types_out (_check_missing_website (Some "") "Acme") = ["Missing Company Website"].
Proof.
  split; [reflexivity|]. split; [|reflexivity].
  eapply (request_optional_fields
            [("company_name", Some "Acme"); ("job_title", Some "Software Engineer");
             ("description", Some plain_description); ("email", Some "hr@acme.com");
             ("website", Some "   "); ("salary", None)]
            "Acme" "Software Engineer" plain_description "hr@acme.com" (Some "") None).
  reflexivity.
Defined.

(* ================================================================== *)
(** ** The salary text                                                *)
(* ================================================================== *)




